(** * A shallow embedding of the conversation service of [app.py]

    The service keeps its whole state in one JSON document on disk.  Every
    handler loads the document, changes the in-memory copy, and writes the
    copy back.  The values the code manipulates are the untyped values that
    [json.load] produces, so the embedding works on a type [json] of such
    values together with the few Python operations the code applies to them
    ([in], subscription, [.get], [.append], truth value, slicing).  Each of
    these operations raises on the operand types on which Python raises.

    Everything the code obtains from outside the repository is read from a
    record [world]: the identifier returned by [uuid.uuid4], the clock
    reading, whether the write of the document succeeds and what a failed
    write leaves behind, and the answer of the remote text generator.  Handlers are atomic: the embedding does not
    interleave two load/modify/save cycles. *)

From stdpp Require Import base gmap strings list.
From Stdlib Require Import ZArith.

Set Warnings "-register-all".
#[local] Open Scope string_scope.

(** ** Values *)

(** The Python values that [json.load] builds.  [JFloat m e] stands for the
    finite float [m * 2^e]. *)
Inductive json : Type :=
  | JNull
  | JBool (b : bool)
  | JInt (n : Z)
  | JFloat (m e : Z)
  | JStr (s : string)
  | JArr (l : list json)
  | JObj (m : gmap string json).

Inductive exc_class : Type :=
  | TypeError | KeyError | AttributeError | IndexError | JSONDecodeError
  | UnicodeDecodeError | OSError | RecursionError | ValueError.

(** An exception: its class and the text [str(e)] gives.  The texts follow
    CPython; no result below depends on them. *)
Record exn : Type := Exn { exn_class : exc_class; exn_msg : string }.

Inductive result (A : Type) : Type :=
  | Ok (a : A)
  | Raise (e : exn).
Arguments Ok {A} a.
Arguments Raise {A} e.

#[global] Instance result_ret : MRet result := fun A a => Ok a.
#[global] Instance result_bind : MBind result := fun A B f r =>
  match r with
  | Ok a => f a
  | Raise e => Raise e
  end.

(** [try: r except classes: handler] *)
Definition try_except {A} (r : result A) (catches : exc_class -> bool)
    (handler : exn -> result A) : result A :=
  match r with
  | Ok a => Ok a
  | Raise e => if catches (exn_class e) then handler e else Raise e
  end.

(** ** Python operations on values *)

Definition type_name (v : json) : string :=
  match v with
  | JNull => "NoneType"
  | JBool _ => "bool"
  | JInt _ => "int"
  | JFloat _ _ => "float"
  | JStr _ => "str"
  | JArr _ => "list"
  | JObj _ => "dict"
  end.

(** Truth value of a value, as [if v:] and [not v] use it. *)
Definition truthy (v : json) : bool :=
  match v with
  | JNull => false
  | JBool b => b
  | JInt n => negb (n =? 0)%Z
  | JFloat m _ => negb (m =? 0)%Z
  | JStr s => negb (String.eqb s "")
  | JArr l => match l with [] => false | _ :: _ => true end
  | JObj m => negb (Nat.eqb (size m) 0)
  end.

(** [v == s] for a string literal [s]. *)
Definition eq_str (v : json) (s : string) : bool :=
  match v with
  | JStr t => String.eqb t s
  | _ => false
  end.

Fixpoint is_substring (p s : string) : bool :=
  if String.prefix p s then true
  else match s with
       | EmptyString => false
       | String _ s' => is_substring p s'
       end.

Definition has_key (m : gmap string json) (key : string) : bool :=
  match m !! key with
  | Some _ => true
  | None => false
  end.

(** [key in c] *)
Definition py_in (key : string) (c : json) : result bool :=
  match c with
  | JObj m => Ok (has_key m key)
  | JArr l => Ok (existsb (fun x => eq_str x key) l)
  | JStr s => Ok (is_substring key s)
  | _ => Raise (Exn TypeError
                  ("argument of type '" +:+ type_name c +:+ "' is not iterable"))
  end.

(** [c[key]] for a string [key] *)
Definition py_getitem (c : json) (key : string) : result json :=
  match c with
  | JObj m => match m !! key with
              | Some v => Ok v
              | None => Raise (Exn KeyError ("'" +:+ key +:+ "'"))
              end
  | JArr _ => Raise (Exn TypeError "list indices must be integers or slices, not str")
  | JStr _ => Raise (Exn TypeError "string indices must be integers, not 'str'")
  | _ => Raise (Exn TypeError ("'" +:+ type_name c +:+ "' object is not subscriptable"))
  end.

(** [c[key] = v]; the result is the container after the assignment. *)
Definition py_setitem (c : json) (key : string) (v : json) : result json :=
  match c with
  | JObj m => Ok (JObj (<[key := v]> m))
  | JArr _ => Raise (Exn TypeError "list indices must be integers or slices, not str")
  | _ => Raise (Exn TypeError
                  ("'" +:+ type_name c +:+ "' object does not support item assignment"))
  end.

(** [del c[key]]; the result is the container after the deletion. *)
Definition py_delitem (c : json) (key : string) : result json :=
  match c with
  | JObj m => match m !! key with
              | Some _ => Ok (JObj (delete key m))
              | None => Raise (Exn KeyError ("'" +:+ key +:+ "'"))
              end
  | JArr _ => Raise (Exn TypeError "list indices must be integers or slices, not str")
  | _ => Raise (Exn TypeError
                  ("'" +:+ type_name c +:+ "' object does not support item deletion"))
  end.

(** [c.get(key, dflt)] *)
Definition py_get (c : json) (key : string) (dflt : json) : result json :=
  match c with
  | JObj m => Ok (default dflt (m !! key))
  | _ => Raise (Exn AttributeError
                  ("'" +:+ type_name c +:+ "' object has no attribute 'get'"))
  end.

(** [c.append(v)]; the result is the list after the call. *)
Definition py_append (c : json) (v : json) : result json :=
  match c with
  | JArr l => Ok (JArr (l ++ [v]))
  | _ => Raise (Exn AttributeError
                  ("'" +:+ type_name c +:+ "' object has no attribute 'append'"))
  end.

Definition last_n {A} (n : nat) (l : list A) : list A := drop (length l - n) l.

(** [c[-n:]] *)
Definition py_slice_last (n : nat) (c : json) : result json :=
  match c with
  | JArr l => Ok (JArr (last_n n l))
  | JStr s => Ok (JStr (String.substring (String.length s - n) n s))
  | JObj _ => Raise (Exn TypeError "unhashable type: 'slice'")
  | _ => Raise (Exn TypeError ("'" +:+ type_name c +:+ "' object is not subscriptable"))
  end.

(** [len(c)] *)
Definition py_len (c : json) : result nat :=
  match c with
  | JArr l => Ok (length l)
  | JStr s => Ok (String.length s)
  | JObj m => Ok (size m)
  | _ => Raise (Exn TypeError ("object of type '" +:+ type_name c +:+ "' has no len()"))
  end.

(** [c[0]] *)
Definition py_first (c : json) : result json :=
  match c with
  | JArr l => match l with
              | v :: _ => Ok v
              | [] => Raise (Exn IndexError "list index out of range")
              end
  | JStr s => match s with
              | String a _ => Ok (JStr (String a EmptyString))
              | EmptyString => Raise (Exn IndexError "string index out of range")
              end
  | JObj _ => Raise (Exn KeyError "0")
  | _ => Raise (Exn TypeError ("'" +:+ type_name c +:+ "' object is not subscriptable"))
  end.

(** A nested object is mutated in place: after [parent[key]] has been
    changed into [child], the parent holds the changed child. *)
Definition writeback (parent : json) (key : string) (child : json) : json :=
  match parent with
  | JObj m => JObj (<[key := child]> m)
  | _ => parent
  end.

(** ** The outside world *)

(** What [requests.post] followed by [raise_for_status] and [response.json]
    gives: a RequestException with its text, or the decoded answer. *)
Inductive http_outcome : Type :=
  | RequestFailed (msg : string)
  | Responded (answer : json).

Record world : Type := World {
  uuid4 : string;                      (* str(uuid.uuid4()) *)
  now_iso : string;                    (* datetime.now().isoformat() *)
  write_ok : bool;                     (* the write of the document succeeds *)
  truncates : bool;                    (* a write that fails does so after
                                          open(.., 'w') has emptied the file *)
  http_post : json -> http_outcome     (* the generator's answer to a prompt *)
}.

(** What [open] and [json.load] make of the backing file. *)
Inductive file_content : Type :=
  | Unparsable                         (* json.load raises JSONDecodeError *)
  | Unloadable (e : exn)               (* open or json.load raises [e]: the
                                          file cannot be opened or decoded
                                          (OSError, UnicodeDecodeError), or
                                          json.load gives up on it
                                          (RecursionError, ValueError) *)
  | Parsed (v : json).

(** The backing file: [None] when [os.path.exists] is false. *)
Definition disk : Type := option file_content.

(** ** Store: class WhatsAppManager *)

Definition default_data : gmap string json :=
  {[ "conversations" := JObj ∅;
     "currentConvId" := JStr "conv-default";
     "simulateBot" := JBool false;
     "geminiEnabled" := JBool false ]}.

(** [default_data.items()] *)
Definition default_items : list (string * json) :=
  [ ("conversations", JObj ∅);
    ("currentConvId", JStr "conv-default");
    ("simulateBot", JBool false);
    ("geminiEnabled", JBool false) ].

Definition json_load (c : file_content) : result json :=
  match c with
  | Unparsable => Raise (Exn JSONDecodeError "Expecting value")
  | Unloadable e => Raise e
  | Parsed v => Ok v
  end.

(** The loop [for key, value in default_data.items(): if key not in data:
    data[key] = value]. *)
Fixpoint backfill (items : list (string * json)) (data : json) : result json :=
  match items with
  | [] => Ok data
  | (key, value) :: rest =>
      present ← py_in key data;
      data' ← (if negb present then py_setitem data key value else Ok data);
      backfill rest data'
  end.

Definition load_data (dk : disk) : result json :=
  match dk with
  | Some content =>
      try_except
        (data ← json_load content; backfill default_items data)
        (fun c => match c with JSONDecodeError | KeyError => true | _ => false end)
        (fun _ => Ok (JObj default_data))
  | None => Ok (JObj default_data)
  end.

(** What a write that fails leaves behind.  [open(.., 'w')] empties the file
    before [json.dump] runs: when [open] itself fails the file is as it was,
    and when [json.dump] fails the file is empty or holds the beginning of
    the document, which is not JSON. *)
Definition after_failed_write (w : world) (dk : disk) : disk :=
  if truncates w then Some Unparsable else dk.

Definition save_data (data : json) (w : world) (dk : disk) : bool * disk :=
  if write_ok w then (true, Some (Parsed data))
  else (false, after_failed_write w dk).

Definition welcome_message (w : world) : json :=
  JObj {[ "id" := JStr (uuid4 w);
          "who" := JStr "their";
          "text" := JStr "Olá! Sou o Gemini AI. Como posso ajudá-lo hoje?";
          "ts" := JStr (now_iso w);
          "status" := JStr "delivered" ]}.

Definition default_conversation (w : world) : json :=
  JObj {[ "id" := JStr "conv-default";
          "name" := JStr "Conversa com Gemini AI";
          "messages" := JArr [welcome_message w] ]}.

Definition init_default_steps (w : world) (dk : disk) : result json :=
  data ← load_data dk;
  convs ← py_getitem data "conversations";
  present ← py_in "conv-default" convs;
  data ← (if negb present then
            convs' ← py_setitem convs "conv-default" (default_conversation w);
            Ok (writeback data "conversations" convs')
          else Ok data);
  cur ← py_get data "currentConvId" (JStr "conv-default");
  data ← py_setitem data "currentConvId" cur;
  bot ← py_get data "simulateBot" (JBool false);
  data ← py_setitem data "simulateBot" bot;
  gem ← py_get data "geminiEnabled" (JBool true);
  py_setitem data "geminiEnabled" gem.

(** [init_default_data] has no handler of its own: an exception leaves it
    before the save. *)
Definition init_default_data (w : world) (dk : disk) : result json * disk :=
  match init_default_steps w dk with
  | Ok data => (Ok data, snd (save_data data w dk))
  | Raise e => (Raise e, dk)
  end.

(** ** Responses *)

Record task : Type := Task {
  task_conv : string;
  task_prompt : json;
  task_context : json
}.

(** What a handler leaves behind: the HTTP status and JSON body, the backing
    file, and the timer it started, if any. *)
Record outcome : Type := Outcome {
  status : nat;
  body : json;
  stored : disk;
  scheduled : option task
}.

Definition error_body (msg : string) : json := JObj {[ "error" := JStr msg ]}.

Definition respond (code : nat) (b : json) (dk : disk) : outcome :=
  Outcome code b dk None.

(** [except Exception as e: return jsonify({"error": str(e)}), 500] *)
Definition guard (dk : disk) (r : result outcome) : outcome :=
  match r with
  | Ok o => o
  | Raise e => respond 500 (error_body (exn_msg e)) dk
  end.

Definition newline : string := String (Ascii.ascii_of_nat 10) EmptyString.

Section Service.

(** [os.getenv('GEMINI_API_KEY')] *)
Variable API_KEY : option string.

(** [str(v)] for a value [v] that is not a string. *)
Variable py_str : json -> string.

(** How an f-string renders a value. *)
Definition py_format (v : json) : string :=
  match v with
  | JStr s => s
  | _ => py_str v
  end.

(** ** Reply generator: class GeminiAIManager *)

Definition api_key_missing : bool :=
  match API_KEY with
  | None => true
  | Some k => String.eqb k ""
  end.

(** The items that [for msg in c[-n:]] visits. *)
Definition slice_last_items (n : nat) (c : json) : result (list json) :=
  match c with
  | JArr l => Ok (last_n n l)
  | JStr s =>
      Ok ((fun a => JStr (String a EmptyString)) <$>
          String.list_ascii_of_string (String.substring (String.length s - n) n s))
  | JObj _ => Raise (Exn TypeError "unhashable type: 'slice'")
  | _ => Raise (Exn TypeError ("'" +:+ type_name c +:+ "' object is not subscriptable"))
  end.

Definition context_part (msg : json) : result string :=
  who ← py_getitem msg "who";
  let role := if eq_str who "mine" then "user" else "model" in
  text ← py_getitem msg "text";
  Ok (role +:+ ": " +:+ py_format text).

Fixpoint context_parts_of (msgs : list json) : result (list string) :=
  match msgs with
  | [] => Ok []
  | msg :: rest =>
      part ← context_part msg;
      parts ← context_parts_of rest;
      Ok (part :: parts)
  end.

(** Lines 99-105: the text sent to the generator. *)
Definition build_prompt (prompt conversation_context : json) : result json :=
  context_parts ←
    (if truthy conversation_context then
       msgs ← slice_last_items 6 conversation_context;
       context_parts_of msgs
     else Ok []);
  match context_parts with
  | _ :: _ =>
      Ok (JStr (String.concat newline
                  (context_parts ++ ["user: " +:+ py_format prompt])))
  | [] => Ok prompt
  end.

(** Lines 130-137: the reply taken from the generator's answer. *)
Definition extract_reply (answer : json) : result json :=
  has ← py_in "candidates" answer;
  nonempty ← (if (has : bool) then
                cands ← py_getitem answer "candidates";
                n ← py_len cands;
                Ok (Nat.ltb 0 n)
              else Ok false);
  if (nonempty : bool) then
    cands ← py_getitem answer "candidates";
    cand ← py_first cands;
    content ← py_getitem cand "content";
    parts ← py_getitem content "parts";
    part ← py_first parts;
    text ← py_getitem part "text";
    Ok (JObj {[ "response" := text; "status" := JStr "success" ]})
  else Ok (error_body "Nenhuma resposta do Gemini").

Definition api_error (e : exn) : json :=
  error_body ("Erro na API Gemini: " +:+ exn_msg e).

(** The fixed headers and sampling parameters of the request are left out:
    [http_post] answers to the prompt text. *)
Definition generate_response (w : world) (prompt conversation_context : json) : json :=
  if api_key_missing then error_body "API key não configurada"
  else
    match build_prompt prompt conversation_context with
    | Raise e => api_error e
    | Ok full_prompt =>
        match http_post w full_prompt with
        | RequestFailed msg => error_body ("Erro de conexão: " +:+ msg)
        | Responded answer =>
            match extract_reply answer with
            | Ok r => r
            | Raise e => api_error e
            end
        end
    end.

(** ** Delayed notifier *)

Definition reply_message (w : world) (text : json) : json :=
  JObj {[ "id" := JStr (uuid4 w);
          "who" := JStr "their";
          "text" := text;
          "ts" := JStr (now_iso w);
          "status" := JStr "delivered" ]}.

(** [data["conversations"][conversation_id]["messages"].append(message)] *)
Definition append_message (data : json) (conversation_id : string) (message : json)
    : result json :=
  convs ← py_getitem data "conversations";
  conv ← py_getitem convs conversation_id;
  msgs ← py_getitem conv "messages";
  msgs' ← py_append msgs message;
  Ok (writeback data "conversations"
        (writeback convs conversation_id (writeback conv "messages" msgs'))).

Definition generate_gemini_reply (t : task) (w : world) (dk : disk) : disk :=
  let gemini_response := generate_response w (task_prompt t) (task_context t) in
  let run : result disk :=
    st ← py_get gemini_response "status" JNull;
    if eq_str st "success" then
      text ← py_getitem gemini_response "response";
      let reply := reply_message w text in
      data ← load_data dk;
      convs ← py_getitem data "conversations";
      present ← py_in (task_conv t) convs;
      if (present : bool) then
        data ← append_message data (task_conv t) reply;
        Ok (snd (save_data data w dk))
      else Ok dk
    else Ok dk in
  match run with
  | Ok dk' => dk'
  | Raise _ => dk
  end.

(** ** HTTP handlers *)

Definition not_found : json := error_body "Conversa não encontrada".

Definition get_conversations (dk : disk) : outcome :=
  guard dk (
    data ← load_data dk;
    convs ← py_getitem data "conversations";
    Ok (respond 200 convs dk)).

Definition get_conversation (conversation_id : string) (dk : disk) : outcome :=
  guard dk (
    data ← load_data dk;
    convs ← py_getitem data "conversations";
    conversation ← py_get convs conversation_id JNull;
    if truthy conversation then Ok (respond 200 conversation dk)
    else Ok (respond 404 not_found dk)).

Definition create_conversation (new_conv : json) (w : world) (dk : disk) : outcome :=
  guard dk (
    data ← load_data dk;
    rejected ← (if negb (truthy new_conv) then Ok true
                else name ← py_get new_conv "name" JNull; Ok (negb (truthy name)));
    if (rejected : bool) then
      Ok (respond 400 (error_body "Nome da conversa é obrigatório") dk)
    else
      let conv_id := "conv-" +:+ uuid4 w in
      name ← py_getitem new_conv "name";
      let conversation :=
        JObj {[ "id" := JStr conv_id; "name" := name; "messages" := JArr [] ]} in
      convs ← py_getitem data "conversations";
      convs' ← py_setitem convs conv_id conversation;
      let data := writeback data "conversations" convs' in
      let '(saved, dk') := save_data data w dk in
      if (saved : bool) then Ok (respond 201 conversation dk')
      else Ok (respond 500 (error_body "Erro ao salvar conversa") dk')).

(** [for field in required_fields: if field not in message_data: return ...] *)
Fixpoint first_missing (fields : list string) (message_data : json)
    : result (option string) :=
  match fields with
  | [] => Ok None
  | field :: rest =>
      present ← py_in field message_data;
      if negb present then Ok (Some field) else first_missing rest message_data
  end.

Definition add_message (conversation_id : string) (message_data : json)
    (w : world) (dk : disk) : outcome :=
  guard dk (
    data ← load_data dk;
    convs ← py_getitem data "conversations";
    present ← py_in conversation_id convs;
    if negb present then Ok (respond 404 not_found dk)
    else if negb (truthy message_data) then
      Ok (respond 400 (error_body "Dados da mensagem são obrigatórios") dk)
    else
      missing ← first_missing ["who"; "text"] message_data;
      match missing with
      | Some field =>
          Ok (respond 400 (error_body ("Campo '" +:+ field +:+ "' é obrigatório")) dk)
      | None =>
          who ← py_getitem message_data "who";
          text ← py_getitem message_data "text";
          st ← py_get message_data "status" (JStr "sent");
          let message :=
            JObj {[ "id" := JStr (uuid4 w); "who" := who; "text" := text;
                    "ts" := JStr (now_iso w); "status" := st ]} in
          data ← append_message data conversation_id message;
          let '(saved, dk') := save_data data w dk in
          if (saved : bool) then
            Ok (guard dk' (
              who ← py_getitem message_data "who";
              enabled ← (if eq_str who "mine"
                         then py_get data "geminiEnabled" (JBool false)
                         else Ok (JBool false));
              if truthy enabled then
                convs ← py_getitem data "conversations";
                conversation ← py_getitem convs conversation_id;
                msgs ← py_getitem conversation "messages";
                context_messages ← py_slice_last 5 msgs;
                Ok (Outcome 201 message dk'
                      (Some (Task conversation_id text context_messages)))
              else Ok (respond 201 message dk')))
          else Ok (respond 500 (error_body "Erro ao salvar mensagem") dk')
      end).

Definition get_messages (conversation_id : string) (dk : disk) : outcome :=
  guard dk (
    data ← load_data dk;
    convs ← py_getitem data "conversations";
    present ← py_in conversation_id convs;
    if negb present then Ok (respond 404 not_found dk)
    else
      conv ← py_getitem convs conversation_id;
      msgs ← py_getitem conv "messages";
      Ok (respond 200 msgs dk)).

Definition delete_conversation (conversation_id : string) (w : world) (dk : disk)
    : outcome :=
  guard dk (
    data ← load_data dk;
    convs ← py_getitem data "conversations";
    present ← py_in conversation_id convs;
    if negb present then Ok (respond 404 not_found dk)
    else if String.eqb conversation_id "conv-default" then
      Ok (respond 400 (error_body "Não é possível deletar a conversa padrão") dk)
    else
      convs' ← py_delitem convs conversation_id;
      let data := writeback data "conversations" convs' in
      cur ← py_getitem data "currentConvId";
      data ← (if eq_str cur conversation_id
              then py_setitem data "currentConvId" (JStr "conv-default")
              else Ok data);
      let '(saved, dk') := save_data data w dk in
      if (saved : bool) then
        Ok (respond 200 (JObj {[ "message" := JStr "Conversa deletada com sucesso" ]}) dk')
      else Ok (respond 500 (error_body "Erro ao salvar alterações") dk')).

Definition clear_messages (conversation_id : string) (w : world) (dk : disk)
    : outcome :=
  guard dk (
    data ← load_data dk;
    convs ← py_getitem data "conversations";
    present ← py_in conversation_id convs;
    if negb present then Ok (respond 404 not_found dk)
    else
      conv ← py_getitem convs conversation_id;
      conv' ← py_setitem conv "messages" (JArr []);
      let data :=
        writeback data "conversations" (writeback convs conversation_id conv') in
      let '(saved, dk') := save_data data w dk in
      if (saved : bool) then
        Ok (respond 200 (JObj {[ "message" := JStr "Mensagens limpas com sucesso" ]}) dk')
      else Ok (respond 500 (error_body "Erro ao salvar alterações") dk')).

Definition get_state (dk : disk) : outcome :=
  guard dk (data ← load_data dk; Ok (respond 200 data dk)).

Definition toggle_bot (w : world) (dk : disk) : outcome :=
  guard dk (
    data ← load_data dk;
    old ← py_get data "simulateBot" (JBool false);
    data ← py_setitem data "simulateBot" (JBool (negb (truthy old)));
    let '(saved, dk') := save_data data w dk in
    if (saved : bool) then
      flag ← py_getitem data "simulateBot";
      Ok (respond 200 (JObj {[ "simulateBot" := flag ]}) dk')
    else Ok (respond 500 (error_body "Erro ao salvar configuração") dk')).

Definition toggle_gemini (w : world) (dk : disk) : outcome :=
  guard dk (
    data ← load_data dk;
    current_state ← py_get data "geminiEnabled" (JBool false);
    data ← py_setitem data "geminiEnabled" (JBool (negb (truthy current_state)));
    let '(saved, dk') := save_data data w dk in
    if (saved : bool) then
      flag ← py_getitem data "geminiEnabled";
      Ok (respond 200
            (JObj {[ "geminiEnabled" := flag;
                     "message" := JStr ("Gemini AI " +:+
                        (if truthy flag then "ativado" else "desativado")) ]}) dk')
    else Ok (respond 500 (error_body "Erro ao salvar configuração") dk')).

Definition generate_with_gemini (data : json) (w : world) (dk : disk) : outcome :=
  guard dk (
    rejected ← (if negb (truthy data) then Ok true
                else has ← py_in "prompt" data; Ok (negb has));
    if (rejected : bool) then Ok (respond 400 (error_body "Prompt é obrigatório") dk)
    else
      conversation_context ← py_get data "context" (JArr []);
      prompt ← py_getitem data "prompt";
      let gemini_response := generate_response w prompt conversation_context in
      st ← py_get gemini_response "status" JNull;
      if eq_str st "success" then Ok (respond 200 gemini_response dk)
      else
        err ← py_get gemini_response "error" (JStr "Erro desconhecido");
        Ok (respond 500 (JObj {[ "error" := err ]}) dk)).

Definition get_gemini_status (dk : disk) : outcome :=
  guard dk (
    data ← load_data dk;
    enabled ← py_get data "geminiEnabled" (JBool false);
    Ok (respond 200
          (JObj {[ "geminiEnabled" := enabled;
                   "apiConfigured" := JBool (negb api_key_missing) ]}) dk)).

(** ** The running service *)

Inductive request : Type :=
  | GetConversations
  | GetConversation (conversation_id : string)
  | CreateConversation (new_conv : json)
  | AddMessage (conversation_id : string) (message_data : json)
  | GetMessages (conversation_id : string)
  | DeleteConversation (conversation_id : string)
  | ClearMessages (conversation_id : string)
  | GetState
  | ToggleBot
  | ToggleGemini
  | GenerateWithGemini (data : json)
  | GetGeminiStatus.

Definition handle (r : request) (w : world) (dk : disk) : outcome :=
  match r with
  | GetConversations => get_conversations dk
  | GetConversation cid => get_conversation cid dk
  | CreateConversation new_conv => create_conversation new_conv w dk
  | AddMessage cid message_data => add_message cid message_data w dk
  | GetMessages cid => get_messages cid dk
  | DeleteConversation cid => delete_conversation cid w dk
  | ClearMessages cid => clear_messages cid w dk
  | GetState => get_state dk
  | ToggleBot => toggle_bot w dk
  | ToggleGemini => toggle_gemini w dk
  | GenerateWithGemini data => generate_with_gemini data w dk
  | GetGeminiStatus => get_gemini_status dk
  end.

(** The backing file and the timers that were started and have not fired. *)
Record config : Type := Config {
  store : disk;
  timers : list task
}.

Inductive event : Type :=
  | Request (r : request) (w : world)
  | TimerFires (i : nat) (w : world).

Definition step (ev : event) (c : config) : config :=
  match ev with
  | Request r w =>
      let o := handle r w (store c) in
      Config (stored o) (timers c ++ option_list (scheduled o))
  | TimerFires i w =>
      match timers c !! i with
      | Some t => Config (generate_gemini_reply t w (store c)) (delete i (timers c))
      | None => c
      end
  end.

Definition run (evs : list event) (c : config) : config :=
  foldl (fun c ev => step ev c) c evs.

End Service.

(** ** Notions used in the statements *)

(** The views below read the backing file the way every handler does,
    through [load_data]. *)

Definition field_of (dk : disk) (key : string) : option json :=
  match load_data dk with
  | Ok (JObj d) => d !! key
  | _ => None
  end.

Definition conversations_of (dk : disk) : option (gmap string json) :=
  match field_of dk "conversations" with
  | Some (JObj convs) => Some convs
  | _ => None
  end.

Definition messages_in (conv : json) : option (list json) :=
  match conv with
  | JObj c => match c !! "messages" with
              | Some (JArr msgs) => Some msgs
              | _ => None
              end
  | _ => None
  end.

Definition messages_of (dk : disk) (conversation_id : string) : option (list json) :=
  convs ← conversations_of dk;
  conv ← convs !! conversation_id;
  messages_in conv.

(** The stored conversations are a mapping that has the key "conv-default". *)
Definition has_default (dk : disk) : Prop :=
  ∃ convs, conversations_of dk = Some convs ∧ is_Some (convs !! "conv-default").

(** The backing file is absent, is not JSON (json.load raises
    JSONDecodeError), or is a JSON object whose "conversations" entry, when
    it has one, is an object. *)
Definition typed_file (dk : disk) : Prop :=
  match dk with
  | Some (Parsed v) =>
      ∃ d, v = JObj d ∧
           ∀ c, d !! "conversations" = Some c → ∃ convs, c = JObj convs
  | Some (Unloadable _) => False
  | Some Unparsable | None => True
  end.

(** A write in the world [w] succeeds, or fails before the file is opened:
    it does not leave an emptied or partial file. *)
Definition safe_write (w : world) : bool := write_ok w || negb (truncates w).

Definition event_world (ev : event) : world :=
  match ev with
  | Request _ w => w
  | TimerFires _ w => w
  end.

Definition is_timer (ev : event) : Prop :=
  match ev with
  | TimerFires _ _ => True
  | Request _ _ => False
  end.

(** A state that is all there: loading it back-fills nothing. *)
Definition complete (d : gmap string json) : Prop := d ∪ default_data = d.

(** The truth value of [data.get("geminiEnabled", False)] in the loaded
    state. *)
Definition gemini_enabled (dk : disk) : bool :=
  match load_data dk with
  | Ok data =>
      match py_get data "geminiEnabled" (JBool false) with
      | Ok v => truthy v
      | Raise _ => false
      end
  | Raise _ => false
  end.

(** A context message: an object with a "who" and a "text" entry. *)
Definition well_formed_message (m : json) : Prop :=
  ∃ o who text, m = JObj o ∧ o !! "who" = Some who ∧ o !! "text" = Some text.

Definition role_of (who : json) : string :=
  if eq_str who "mine" then "user" else "model".

(** The flag named [key] after the handler [toggle] has run once, and after
    it has run twice.  After a save that failed the file is known to be the
    former one only if it could not be opened for writing. *)
Definition toggles_flag (key : string) (toggle : world → disk → outcome) : Prop :=
  ∀ (w1 w2 : world) (dk : disk) (b : bool),
    field_of dk key = Some (JBool b) →
    let o1 := toggle w1 dk in
    let o2 := toggle w2 (stored o1) in
    (if write_ok w1 then
       status o1 = 200 ∧
       py_getitem (body o1) key = Ok (JBool (negb b)) ∧
       field_of (stored o1) key = Some (JBool (negb b))
     else status o1 = 500 ∧ (truncates w1 = false → stored o1 = dk)) ∧
    (write_ok w1 = true → write_ok w2 = true →
     field_of (stored o2) key = Some (JBool b) ∧
     load_data (stored o2) = load_data dk).

(** The request body carries no usable name: [request.json] is None, or it
    is an object whose "name" is missing or falsy. *)
Definition lacks_name (new_conv : json) : Prop :=
  new_conv = JNull ∨
  ∃ b, new_conv = JObj b ∧ truthy (default JNull (b !! "name")) = false.

Definition new_conversation (w : world) (name : json) : json :=
  JObj {[ "id" := JStr ("conv-" +:+ uuid4 w); "name" := name; "messages" := JArr [] ]}.

Definition new_message (w : world) (who text : json) (st : option json) : json :=
  JObj {[ "id" := JStr (uuid4 w); "who" := who; "text" := text;
          "ts" := JStr (now_iso w); "status" := default (JStr "sent") st ]}.

(** The identifier [u] is the id of no message of the conversations
    [convs]: what [uuid.uuid4] is relied on for. *)
Definition unused_id (u : string) (convs : gmap string json) : Prop :=
  ∀ cid conv msgs old,
    convs !! cid = Some conv → messages_in conv = Some msgs → old ∈ msgs →
    py_getitem old "id" ≠ Ok (JStr u).

(** The timer that [add_message] starts after a successful save. *)
Definition timer_for (cid : string) (d : gmap string json) (who text : json)
    (msgs : list json) : option task :=
  if eq_str who "mine" && truthy (default (JBool false) (d !! "geminiEnabled"))
  then Some (Task cid text (JArr (last_n 5 msgs)))
  else None.

(** The text of a successful generator result. *)
Definition generator_reply (r : json) : option json :=
  match r with
  | JObj m =>
      if eq_str (default JNull (m !! "status")) "success" then m !! "response"
      else None
  | _ => None
  end.

Section Claimed.

Variable API_KEY : option string.
Variable py_str : json -> string.

(** The line "<role>: <text>" of a context message, in the words of the
    specification. *)
Definition claimed_line (m : json) : string :=
  match m with
  | JObj o =>
      role_of (default JNull (o !! "who")) +:+ ": " +:+
      py_format py_str (default JNull (o !! "text"))
  | _ => ""
  end.

(** The request text in the words of the specification. *)
Definition claimed_request_text (prompt : json) (ctx : list json) : json :=
  match ctx with
  | [] => prompt
  | _ :: _ =>
      JStr (String.concat newline
              ((claimed_line <$> last_n 6 ctx) ++
               ["user: " +:+ py_format py_str prompt]))
  end.

(** The notifier in the words of the specification: the context handed to
    the generator is made of the last five messages that the target
    conversation has in the reloaded state. *)
Definition claimed_notifier (t : task) (w : world) (dk : disk) : disk :=
  let context := JArr (last_n 5 (default [] (messages_of dk (task_conv t)))) in
  generate_gemini_reply API_KEY py_str
    (Task (task_conv t) (task_prompt t) context) w dk.

End Claimed.

(** ** Concrete worlds and states *)

Definition offline : json → http_outcome := fun _ => RequestFailed "offline".

(** A generator that answers with the text it was sent. *)
Definition echo : json → http_outcome := fun prompt =>
  Responded (JObj {[ "candidates" :=
    JArr [JObj {[ "content" := JObj {[ "parts" := JArr [JObj {[ "text" := prompt ]}] ]} ]}] ]}).

Definition calm : world := World "id-1" "2024-05-01T10:00:00" true false offline.
Definition later : world := World "id-2" "2024-05-01T10:00:01" true false offline.
Definition answering : world := World "id-3" "2024-05-01T10:00:02" true false echo.

(** The file cannot be opened for writing. *)
Definition broken_disk : world :=
  World "id-1" "2024-05-01T10:00:00" false false offline.

(** The generator answers, and the file cannot be opened for writing. *)
Definition unwritable : world :=
  World "id-6" "2024-05-01T10:00:04" false false echo.

(** The write fails after the file was opened, and emptied. *)
Definition torn_write : world :=
  World "id-5" "2024-05-01T10:00:03" false true echo.

Definition no_repr : json → string := fun _ => "".

(** The file written by [init_default_data] when there was none. *)
Definition seeded : disk := snd (init_default_data calm None).

Definition seeded_conversation : gmap string json :=
  {[ "id" := JStr "conv-default";
     "name" := JStr "Conversa com Gemini AI";
     "messages" := JArr [welcome_message calm] ]}.

Definition seeded_conversations : gmap string json :=
  {[ "conv-default" := JObj seeded_conversation ]}.

Definition hi : gmap string json := {[ "who" := JStr "mine"; "text" := JStr "hi" ]}.
Definition there : gmap string json := {[ "who" := JStr "mine"; "text" := JStr "there" ]}.
Definition test_name : gmap string json := {[ "name" := JStr "Test" ]}.

(** The seeded file after a conversation named "Test" was created. *)
Definition with_test : disk :=
  stored (create_conversation (JObj test_name) calm seeded).

(** The seeded file after the generator was switched on. *)
Definition enabled : disk := stored (toggle_gemini calm seeded).

Definition asked : json := JObj {[ "who" := JStr "mine"; "text" := JStr "one" ]}.
Definition answered : json := JObj {[ "who" := JStr "their"; "text" := JStr "two" ]}.

Definition later_still : world :=
  World "id-4" "2024-05-01T10:00:01.5" true false offline.

Definition message_hi : json := new_message later (JStr "mine") (JStr "hi") None.
Definition message_there : json :=
  new_message later_still (JStr "mine") (JStr "there") None.

(** Two messages are posted one after the other while the generator is on;
    both timers are pending. *)
Definition two_posts : config :=
  run (Some "key") no_repr
    [ Request (AddMessage "conv-default" (JObj hi)) later;
      Request (AddMessage "conv-default" (JObj there)) later_still ]
    (Config enabled []).

(** The timer started by the first of the two posts. *)
Definition first_timer : task :=
  Task "conv-default" (JStr "hi") (JArr [welcome_message calm; message_hi]).

(** The text of the last message of the default conversation. *)
Definition last_text (dk : disk) : option json :=
  msgs ← messages_of dk "conv-default";
  m ← last msgs;
  match m with
  | JObj o => o !! "text"
  | _ => None
  end.

(** ** Notions used in the further properties *)

(** The result of a successful generation. *)
Definition success_body (text : json) : json :=
  JObj {[ "response" := text; "status" := JStr "success" ]}.

(** The state that [init_default_data] builds from the loaded state [d] with
    conversations [convs]. *)
Definition initialised (w : world) (d convs : gmap string json) : gmap string json :=
  if has_key convs "conv-default" then d
  else <["conversations" :=
         JObj (<["conv-default" := default_conversation w]> convs)]> d.

Definition is_add_message (r : request) : bool :=
  match r with
  | AddMessage _ _ => true
  | _ => false
  end.

(** ** Store *)

Lemma default_data_items : default_data = list_to_map default_items.
Proof. reflexivity. Qed.

Lemma backfill_object (items : list (string * json)) (d : gmap string json) :
  backfill items (JObj d) = Ok (JObj (d ∪ list_to_map items)).
Proof.
  revert d. induction items as [|[key value] rest IH]; intros d; simpl.
  - by rewrite (right_id_L ∅ (∪)).
  - unfold has_key. destruct (d !! key) as [v|] eqn:Hk; simpl; rewrite IH; do 2 f_equal.
    + apply map_eq; intros i. rewrite !lookup_union, lookup_insert.
      case_decide; subst; [|done].
      rewrite Hk. by destruct (list_to_map rest !! i).
    + by rewrite <- insert_union_l, insert_union_r.
Qed.

Lemma load_data_absent : load_data None = Ok (JObj default_data).
Proof. reflexivity. Qed.

Lemma load_data_unparsable : load_data (Some Unparsable) = Ok (JObj default_data).
Proof. reflexivity. Qed.

Lemma load_data_object (d : gmap string json) :
  load_data (Some (Parsed (JObj d))) = Ok (JObj (d ∪ default_data)).
Proof.
  unfold load_data. simpl json_load. cbn [mbind result_bind].
  by rewrite backfill_object, default_data_items.
Qed.

Lemma backfill_array (items : list (string * json)) (l : list json) (v : json) :
  backfill items (JArr l) = Ok v → v = JArr l.
Proof.
  induction items as [|[key value] rest IH]; simpl; [congruence|].
  destruct (existsb _ l); simpl; [exact IH|discriminate].
Qed.

Lemma backfill_string (items : list (string * json)) (s : string) (v : json) :
  backfill items (JStr s) = Ok v → v = JStr s.
Proof.
  induction items as [|[key value] rest IH]; simpl; [congruence|].
  destruct (is_substring key s); simpl; [exact IH|discriminate].
Qed.

Lemma complete_union (d : gmap string json) : complete (d ∪ default_data).
Proof. unfold complete. by rewrite <- (assoc_L (∪)), (idemp_L (∪)). Qed.

Lemma complete_insert (d : gmap string json) (key : string) (v : json) :
  complete d → complete (<[key := v]> d).
Proof. unfold complete. intros H. by rewrite <- insert_union_l, H. Qed.

Lemma complete_lookup (d : gmap string json) (key : string) (v : json) :
  complete d → default_data !! key = Some v → is_Some (d !! key).
Proof.
  unfold complete. intros H Hk. rewrite <- H, lookup_union.
  rewrite Hk. destruct (d !! key); simpl; eauto.
Qed.

Lemma load_data_complete (d : gmap string json) :
  complete d → load_data (Some (Parsed (JObj d))) = Ok (JObj d).
Proof. intros H. by rewrite load_data_object, H. Qed.

Lemma backfill_to_object (v : json) (d : gmap string json) :
  backfill default_items v = Ok (JObj d) → ∃ d0, v = JObj d0.
Proof.
  destruct v; try discriminate; [| |by eauto].
  - intros H. by apply backfill_string in H.
  - intros H. by apply backfill_array in H.
Qed.

(** Whenever [load_data] returns an object, it is a complete one. *)
Lemma load_data_object_inv (dk : disk) (d : gmap string json) :
  load_data dk = Ok (JObj d) → complete d.
Proof.
  destruct dk as [[|e|v]|]; [by intros [= <-]| | |by intros [= <-]].
  { unfold load_data, try_except. cbn [json_load mbind result_bind].
    destruct (exn_class e); try discriminate; by intros [= <-]. }
  unfold load_data. simpl json_load. cbn [mbind result_bind].
  destruct (backfill default_items v) as [x|e] eqn:Hb; unfold try_except.
  - intros [= ->]. destruct (backfill_to_object _ _ Hb) as [d0 ->].
    rewrite backfill_object, <- default_data_items in Hb.
    injection Hb as <-. apply complete_union.
  - destruct (exn_class e); try discriminate; by intros [= <-].
Qed.

Lemma field_of_written (d : gmap string json) (key : string) :
  complete d → field_of (Some (Parsed (JObj d))) key = d !! key.
Proof. intros H. unfold field_of. by rewrite load_data_complete. Qed.

Lemma conversations_of_inv (dk : disk) (convs : gmap string json) :
  conversations_of dk = Some convs →
  ∃ d, load_data dk = Ok (JObj d) ∧ complete d ∧
       d !! "conversations" = Some (JObj convs).
Proof.
  unfold conversations_of, field_of.
  destruct (load_data dk) as [[| | | | | |d]|] eqn:Hl; try discriminate.
  destruct (d !! "conversations") as [[| | | | | |c]|] eqn:Hc; try discriminate.
  intros [= <-]. eauto using load_data_object_inv.
Qed.

Lemma conversations_of_written (d convs : gmap string json) :
  d !! "conversations" = Some (JObj convs) →
  conversations_of (Some (Parsed (JObj d))) = Some convs.
Proof.
  intros H. unfold conversations_of, field_of. rewrite load_data_object.
  by rewrite (lookup_union_Some_l _ _ _ _ H).
Qed.

(** The state that [load_data] makes of a missing or unreadable file has no
    conversations. *)
Lemma conversations_of_fresh (dk : disk) :
  dk = None ∨ dk = Some Unparsable → conversations_of dk = Some ∅.
Proof. by intros [-> | ->]. Qed.

(** ** Loading the backing file (C4) *)

(** C4, where the code departs from the claim: when the backing file holds
    the JSON document [[]], which parses but is no object, [load_data] does
    not return the default state.  The membership test of the back-filling
    loop succeeds on the list, the assignment [data[key] = value] raises
    TypeError, and the [except] clause, which names JSONDecodeError and
    KeyError only, lets it through. *)
Theorem load_data_array_raises :
  load_data (Some (Parsed (JArr []))) =
  Raise (Exn TypeError "list indices must be integers or slices, not str").
Proof. reflexivity. Qed.

(** What [load_data] does on the other file contents: the default state for
    a missing file and for one that is not JSON, the back-filled object for
    a JSON object. *)
Lemma load_data_cases (d : gmap string json) :
  load_data None = Ok (JObj default_data) ∧
  load_data (Some Unparsable) = Ok (JObj default_data) ∧
  load_data (Some (Parsed (JObj d))) = Ok (JObj (d ∪ default_data)) ∧
  (∀ key v, default_data !! key = Some v →
            is_Some ((d ∪ default_data) !! key)).
Proof.
  split_and!; [done|done|apply load_data_object|].
  intros key v Hk. eapply complete_lookup; [apply complete_union|done].
Qed.

(** An object whose entries have the wrong types is returned as it is. *)
Lemma load_data_keeps_ill_typed :
  field_of (Some (Parsed (JObj {[ "conversations" := JInt 7 ]}))) "conversations"
  = Some (JInt 7).
Proof. reflexivity. Qed.

(** ** Deleting the default conversation (C10) *)

(** C10: a DELETE of "conv-default" is answered 400 exactly when the loaded
    conversations hold the key "conv-default", and 404 when they do not, as
    with the state loaded from a missing or unreadable file; in either case
    the backing file is left as it was and no timer is started. *)
Theorem delete_default_existence_first (w : world) (dk : disk)
    (convs : gmap string json) :
  conversations_of dk = Some convs →
  delete_conversation "conv-default" w dk =
    (if has_key convs "conv-default"
     then respond 400 (error_body "Não é possível deletar a conversa padrão") dk
     else respond 404 not_found dk)
  ∧ (convs = ∅ → delete_conversation "conv-default" w dk = respond 404 not_found dk).
Proof.
  intros (d & Hl & _ & Hc)%conversations_of_inv.
  assert (delete_conversation "conv-default" w dk =
    (if has_key convs "conv-default"
     then respond 400 (error_body "Não é possível deletar a conversa padrão") dk
     else respond 404 not_found dk)) as Heq.
  { unfold delete_conversation. rewrite Hl. cbn [mbind result_bind py_getitem].
    rewrite Hc. cbn [mbind result_bind py_in].
    by destruct (has_key convs "conv-default"). }
  split; [done|]. intros ->. by rewrite Heq.
Qed.

(** ** Posting with the generator switched off (C8) *)

Lemma append_message_get (data data' : json) (cid key : string) (m dflt : json) :
  append_message data cid m = Ok data' → key ≠ "conversations" →
  py_get data' key dflt = py_get data key dflt.
Proof.
  unfold append_message. destruct data as [| | | | | |d]; try discriminate.
  cbn [py_getitem]. destruct (d !! "conversations") as [convs|]; [|discriminate].
  cbn [mbind result_bind].
  destruct (py_getitem convs cid) as [conv|]; [|discriminate]. cbn [mbind result_bind].
  destruct (py_getitem conv "messages") as [msgs|]; [|discriminate]. cbn [mbind result_bind].
  destruct (py_append msgs m) as [msgs'|]; [|discriminate]. cbn [mbind result_bind].
  intros [= <-] Hne. simpl. by rewrite lookup_insert_ne.
Qed.

Lemma add_message_no_timer (cid : string) (message_data : json) (w : world) (dk : disk) :
  gemini_enabled dk = false → scheduled (add_message cid message_data w dk) = None.
Proof.
  unfold gemini_enabled, add_message. intros H.
  destruct (load_data dk) as [data|]; [|done]. cbn [mbind result_bind].
  destruct (py_getitem data "conversations") as [convs|]; [|done]. cbn [mbind result_bind].
  destruct (py_in cid convs) as [[]|]; [|done|done]. cbn [mbind result_bind negb].
  destruct (truthy message_data); [|done]. cbn [negb].
  destruct (first_missing _ message_data) as [[f|]|]; [done| |done].
  cbn [mbind result_bind].
  destruct (py_getitem message_data "who") as [who|]; [|done]. cbn [mbind result_bind].
  destruct (py_getitem message_data "text") as [text|]; [|done]. cbn [mbind result_bind].
  destruct (py_get message_data "status" _) as [st|]; [|done]. cbn [mbind result_bind].
  destruct (append_message data cid _) as [data'|] eqn:Ha; [|done].
  cbn [mbind result_bind].
  unfold save_data. destruct (write_ok w); [|done].
  cbn [guard mbind result_bind].
  destruct (eq_str who "mine"); [|done].
  rewrite (append_message_get _ _ _ _ _ _ Ha) by done.
  destruct (py_get data "geminiEnabled" (JBool false)) as [v|]; [|done].
  cbn [mbind result_bind]. by rewrite H.
Qed.

Section Timers.

Variable API_KEY : option string.
Variable py_str : json -> string.

Lemma run_no_timers (evs : list (event)) (c : config) :
  timers c = [] → Forall is_timer evs → run API_KEY py_str evs c = c.
Proof.
  intros Ht Hevs. revert c Ht.
  induction Hevs as [|ev evs Hev _ IH]; intros c Ht; [done|].
  unfold run. cbn [foldl]. fold (run API_KEY py_str).
  destruct ev as [r w|i w]; [done|]. cbn [step]. rewrite Ht. cbn. by apply IH.
Qed.

(** C8: in a state whose geminiEnabled flag is false, posting a message
    starts no timer: the handler schedules nothing, so the set of pending
    timers is the one from before the request; and when no timer was pending
    before it, no sequence of timer firings changes the stored state, so no
    reply is appended after the delay. *)
Theorem gemini_off_no_reply (cid : string) (message_data : json) (w : world)
    (c : config) :
  gemini_enabled (store c) = false →
  let c' := step API_KEY py_str (Request (AddMessage cid message_data) w) c in
  scheduled (add_message cid message_data w (store c)) = None ∧
  timers c' = timers c ∧
  (timers c = [] →
   ∀ evs, Forall is_timer evs → run API_KEY py_str evs c' = c').
Proof.
  intros Hoff c'. pose proof (add_message_no_timer cid message_data w _ Hoff) as Hn.
  assert (timers c' = timers c) as Ht.
  { unfold c'. cbn [step handle timers]. rewrite Hn. cbn. by rewrite (right_id_L [] app). }
  split_and!; [done|done|].
  intros Hempty evs Hevs. apply run_no_timers; [congruence|done].
Qed.

End Timers.

(** ** The text sent to the generator (C5) *)

Lemma last_n_length {A} (n : nat) (l : list A) :
  List.length (last_n n l) = Nat.min n (List.length l).
Proof. unfold last_n. rewrite length_drop. lia. Qed.

Lemma last_n_suffix {A} (n : nat) (l : list A) : last_n n l `suffix_of` l.
Proof. exists (take (length l - n) l). unfold last_n. by rewrite take_drop. Qed.

Lemma last_n_all {A} (n : nat) (l : list A) :
  (List.length l ≤ n)%nat → last_n n l = l.
Proof. intros H. unfold last_n. by replace (length l - n) with 0 by lia. Qed.

Lemma last_n_app {A} (n : nat) (l : list A) (x : A) :
  last_n (S n) (l ++ [x]) = (last_n n l ++ [x])%list.
Proof.
  unfold last_n. rewrite length_app. cbn [length].
  replace (length l + 1 - S n) with (length l - n) by lia.
  rewrite drop_app. replace (length l - n - length l) with 0 by lia. done.
Qed.

Section Generator.

Variable API_KEY : option string.
Variable py_str : json -> string.

Lemma context_parts_of_well_formed (msgs : list json) :
  Forall well_formed_message msgs →
  context_parts_of py_str msgs = Ok (claimed_line py_str <$> msgs).
Proof.
  induction 1 as [|m msgs (o & who & text & -> & Hw & Ht) _ IH]; [reflexivity|].
  cbn [context_parts_of fmap list_fmap claimed_line]. rewrite IH.
  unfold context_part. cbn [py_getitem]. by rewrite Hw, Ht.
Qed.

Lemma build_prompt_well_formed (prompt : json) (ctx : list json) :
  Forall well_formed_message ctx →
  build_prompt py_str prompt (JArr ctx) = Ok (claimed_request_text py_str prompt ctx).
Proof.
  intros Hwf. unfold build_prompt, claimed_request_text.
  destruct ctx as [|m ctx]; [done|].
  cbn [truthy slice_last_items mbind result_bind].
  rewrite context_parts_of_well_formed
    by (unfold last_n; by apply Forall_drop).
  pose proof (last_n_length 6 (m :: ctx)) as Hlen.
  destruct (last_n 6 (m :: ctx)) as [|x l]; [cbn [length] in Hlen; lia|done].
Qed.

(** C5: without an API key, [generate_response] returns the configuration
    error whatever the prompt and the context.  With a key and a context that
    is a list of messages, the text it sends is made of the lines
    "<role>: <text>" of the last six context messages at most, with role
    "user" when who is "mine" and "model" otherwise, followed by the line
    "user: <prompt>"; for an empty context the text is the prompt itself. *)
Theorem generate_response_request_text (w : world) (prompt : json)
    (ctx : list json) :
  (api_key_missing API_KEY = true →
   ∀ c, generate_response API_KEY py_str w prompt c
        = error_body "API key não configurada") ∧
  (api_key_missing API_KEY = false → Forall well_formed_message ctx →
   build_prompt py_str prompt (JArr ctx) = Ok (claimed_request_text py_str prompt ctx) ∧
   generate_response API_KEY py_str w prompt (JArr ctx) =
     match http_post w (claimed_request_text py_str prompt ctx) with
     | RequestFailed msg => error_body ("Erro de conexão: " +:+ msg)
     | Responded answer =>
         match extract_reply answer with
         | Ok r => r
         | Raise e => api_error e
         end
     end ∧
   claimed_request_text py_str prompt [] = prompt ∧
   last_n 6 ctx `suffix_of` ctx ∧ (List.length (last_n 6 ctx) ≤ 6)%nat).
Proof.
  split.
  - intros Hk c. unfold generate_response. by rewrite Hk.
  - intros Hk Hwf. split_and!.
    + by apply build_prompt_well_formed.
    + unfold generate_response. by rewrite Hk, build_prompt_well_formed.
    + done.
    + apply last_n_suffix.
    + rewrite last_n_length. lia.
Qed.

End Generator.

(** ** Auxiliary facts on values *)

Lemma eq_str_true (v : json) (s : string) : eq_str v s = true ↔ v = JStr s.
Proof.
  destruct v; simpl; try (split; [discriminate|congruence]).
  rewrite String.eqb_eq. split; congruence.
Qed.

Lemma eq_str_false (v : json) (s : string) : eq_str v s = false ↔ v ≠ JStr s.
Proof. rewrite <- eq_str_true. by destruct (eq_str v s). Qed.

Lemma has_key_true (m : gmap string json) (key : string) :
  has_key m key = true ↔ is_Some (m !! key).
Proof.
  unfold has_key. destruct (m !! key); split; eauto; try done.
Qed.

Lemma truthy_object (m : gmap string json) (key : string) :
  is_Some (m !! key) → truthy (JObj m) = true.
Proof.
  intros [v Hv]. simpl. destruct (size m) eqn:Hs; [|done].
  apply map_size_empty_inv in Hs. subst. by rewrite lookup_empty in Hv.
Qed.

Lemma field_of_loaded (dk : disk) (d : gmap string json) (key : string) :
  load_data dk = Ok (JObj d) → field_of dk key = d !! key.
Proof. intros H. unfold field_of. by rewrite H. Qed.

Lemma after_failed_write_open (w : world) (dk : disk) :
  truncates w = false → after_failed_write w dk = dk.
Proof. intros H. unfold after_failed_write. by rewrite H. Qed.

Lemma save_data_safe (data : json) (w : world) (dk : disk) :
  safe_write w = true →
  save_data data w dk = if write_ok w then (true, Some (Parsed data)) else (false, dk).
Proof.
  unfold safe_write, save_data, after_failed_write.
  by destruct (write_ok w), (truncates w).
Qed.

(** ** Deleting a conversation (C9) *)

(** C9 as the code has it.  For a conversation id other than "conv-default"
    that is present in the conversations: when the save succeeds the handler
    answers 200, the stored conversations are the former ones without that
    id, the active id becomes "conv-default" if it was the deleted id and is
    unchanged otherwise, and every other entry of the state, the two flags
    among them, is unchanged; when the save fails it answers 500, and the
    file is the one from before if it could not be opened for writing. *)
Theorem delete_conversation_effect (cid : string) (w : world) (dk : disk)
    (convs : gmap string json) :
  conversations_of dk = Some convs → is_Some (convs !! cid) →
  cid ≠ "conv-default" →
  let o := delete_conversation cid w dk in
  if write_ok w then
    status o = 200 ∧
    conversations_of (stored o) = Some (delete cid convs) ∧
    (field_of dk "currentConvId" = Some (JStr cid) →
     field_of (stored o) "currentConvId" = Some (JStr "conv-default")) ∧
    (field_of dk "currentConvId" ≠ Some (JStr cid) →
     field_of (stored o) "currentConvId" = field_of dk "currentConvId") ∧
    (∀ key, key ≠ "conversations" → key ≠ "currentConvId" →
            field_of (stored o) key = field_of dk key)
  else status o = 500 ∧ (truncates w = false → stored o = dk).
Proof.
  intros (d & Hl & Hcomp & Hc)%conversations_of_inv Hin Hne o. subst o.
  destruct (complete_lookup d "currentConvId" (JStr "conv-default") Hcomp eq_refl)
    as [cur Hcur].
  unfold delete_conversation. rewrite Hl. cbn [mbind result_bind py_getitem].
  rewrite Hc. cbn [mbind result_bind py_in].
  apply has_key_true in Hin as Hk. rewrite Hk. cbn [negb].
  apply String.eqb_neq in Hne as ->.
  destruct Hin as [c Hcid]. cbn [py_delitem]. rewrite Hcid.
  cbn [mbind result_bind writeback py_getitem].
  rewrite lookup_insert_ne, Hcur by done. cbn [mbind result_bind].
  rewrite !(field_of_loaded _ _ _ Hl).
  unfold save_data.
  destruct (eq_str cur cid) eqn:Heq; cbn [py_setitem mbind result_bind];
    destruct (write_ok w); cbn [guard respond status stored];
    try (by split; [|apply after_failed_write_open]).
  - apply eq_str_true in Heq as ->. split_and!; [done|..].
    + apply conversations_of_written. by rewrite lookup_insert_ne, lookup_insert_eq.
    + intros _. rewrite field_of_written by by do 2 apply complete_insert.
      by rewrite lookup_insert_eq.
    + by rewrite Hcur.
    + intros key H1 H2. rewrite field_of_written by by do 2 apply complete_insert.
      by rewrite !lookup_insert_ne, (field_of_loaded _ _ _ Hl) by congruence.
  - apply eq_str_false in Heq. split_and!; [done|..].
    + apply conversations_of_written. by rewrite lookup_insert_eq.
    + rewrite Hcur. congruence.
    + intros _. rewrite field_of_written by by apply complete_insert.
      by rewrite lookup_insert_ne.
    + intros key H1 H2. rewrite field_of_written by by apply complete_insert.
      by rewrite lookup_insert_ne, (field_of_loaded _ _ _ Hl) by congruence.
Qed.

(** ** Toggling a flag (C7) *)

Lemma toggle_bot_effect (w : world) (dk : disk) (d : gmap string json) (b : bool) :
  load_data dk = Ok (JObj d) → d !! "simulateBot" = Some (JBool b) →
  toggle_bot w dk =
    if write_ok w
    then respond 200 (JObj {[ "simulateBot" := JBool (negb b) ]})
           (Some (Parsed (JObj (<["simulateBot" := JBool (negb b)]> d))))
    else respond 500 (error_body "Erro ao salvar configuração")
           (after_failed_write w dk).
Proof.
  intros Hl Hb. unfold toggle_bot. rewrite Hl. cbn [mbind result_bind py_get].
  rewrite Hb. cbn [default mbind result_bind py_setitem truthy]. unfold save_data.
  destruct (write_ok w); [|done]. cbn [py_getitem]. by rewrite lookup_insert_eq.
Qed.

Lemma toggle_gemini_effect (w : world) (dk : disk) (d : gmap string json) (b : bool) :
  load_data dk = Ok (JObj d) → d !! "geminiEnabled" = Some (JBool b) →
  toggle_gemini w dk =
    if write_ok w
    then respond 200
           (JObj {[ "geminiEnabled" := JBool (negb b);
                    "message" := JStr ("Gemini AI " +:+
                       (if negb b then "ativado" else "desativado")) ]})
           (Some (Parsed (JObj (<["geminiEnabled" := JBool (negb b)]> d))))
    else respond 500 (error_body "Erro ao salvar configuração")
           (after_failed_write w dk).
Proof.
  intros Hl Hb. unfold toggle_gemini. rewrite Hl. cbn [mbind result_bind py_get].
  rewrite Hb. cbn [default mbind result_bind py_setitem truthy]. unfold save_data.
  destruct (write_ok w); [|done]. cbn [py_getitem]. by rewrite lookup_insert_eq.
Qed.

(** C7 as the code has it, for /api/bot and for /api/gemini/toggle.  An
    application whose save succeeds answers 200 with the negation of the
    flag's former value and stores it; one whose save fails answers 500, and
    leaves the file as it was if it could not be opened for writing.  Two
    applications whose saves succeed bring the flag, and the whole loaded
    state, back to what it was. *)
Theorem toggle_twice :
  toggles_flag "simulateBot" toggle_bot ∧ toggles_flag "geminiEnabled" toggle_gemini.
Proof.
  split; intros w1 w2 dk b Hb; unfold field_of in Hb;
    destruct (load_data dk) as [[| | | | | |d]|] eqn:Hl; try discriminate;
    pose proof (load_data_object_inv _ _ Hl) as Hcomp.
  - pose proof (complete_insert d "simulateBot" (JBool (negb b)) Hcomp) as Hcomp'.
    rewrite (toggle_bot_effect w1 dk d b Hl Hb).
    destruct (write_ok w1); cbn;
      [|split; [split; [done|apply after_failed_write_open]|done]].
    rewrite field_of_written, lookup_insert_eq by done.
    split; [by rewrite lookup_singleton_eq|]. intros _ Hw2.
    rewrite (toggle_bot_effect w2 _ _ (negb b) (load_data_complete _ Hcomp'))
      by by rewrite lookup_insert_eq.
    rewrite Hw2. cbn [stored respond].
    rewrite insert_insert_eq, negb_involutive, (insert_id d) by done.
    rewrite load_data_complete by done.
    split; [|done]. unfold field_of. by rewrite load_data_complete.
  - pose proof (complete_insert d "geminiEnabled" (JBool (negb b)) Hcomp) as Hcomp'.
    rewrite (toggle_gemini_effect w1 dk d b Hl Hb).
    destruct (write_ok w1); cbn;
      [|split; [split; [done|apply after_failed_write_open]|done]].
    rewrite field_of_written, lookup_insert_eq by done.
    split; [by rewrite lookup_insert_eq|]. intros _ Hw2.
    rewrite (toggle_gemini_effect w2 _ _ (negb b) (load_data_complete _ Hcomp'))
      by by rewrite lookup_insert_eq.
    rewrite Hw2. cbn [stored respond].
    rewrite insert_insert_eq, negb_involutive, (insert_id d) by done.
    rewrite load_data_complete by done.
    split; [|done]. unfold field_of. by rewrite load_data_complete.
Qed.

(** ** Creating a conversation (C3) *)

(** C3 as the code has it.  When [request.json] is None, or is an object
    whose name is missing or falsy, the answer is 400 and the backing file is
    not written.  A body that is an object with a truthy name yields a
    conversation whose id is "conv-" followed by the generated identifier and
    whose message list is empty; when the save succeeds the answer is 201
    with that conversation, which is stored under its id beside the former
    conversations, and when the save fails the answer is 500, the file being
    the one from before if it could not be opened for writing. *)
Theorem create_conversation_outcome (new_conv : json) (w : world) (dk : disk)
    (convs : gmap string json) :
  conversations_of dk = Some convs →
  let o := create_conversation new_conv w dk in
  (lacks_name new_conv →
   o = respond 400 (error_body "Nome da conversa é obrigatório") dk) ∧
  (∀ b name, new_conv = JObj b → b !! "name" = Some name → truthy name = true →
     String.prefix "conv-" ("conv-" +:+ uuid4 w) = true ∧
     messages_in (new_conversation w name) = Some [] ∧
     if write_ok w then
       status o = 201 ∧ body o = new_conversation w name ∧
       conversations_of (stored o)
         = Some (<["conv-" +:+ uuid4 w := new_conversation w name]> convs) ∧
       (∀ key, key ≠ "conversations" → field_of (stored o) key = field_of dk key)
     else status o = 500 ∧ (truncates w = false → stored o = dk)).
Proof.
  intros (d & Hl & Hcomp & Hc)%conversations_of_inv o. subst o.
  unfold create_conversation. rewrite Hl. cbn [mbind result_bind]. split.
  - intros [-> | (b & -> & Hn)]; [done|].
    destruct (truthy (JObj b)); cbn [negb py_get mbind result_bind]; [|done].
    by rewrite Hn.
  - intros b name -> Hname Hty.
    split_and!; [by destruct (uuid4 w)|reflexivity|].
    rewrite (truthy_object b "name") by eauto.
    cbn [negb py_get mbind result_bind py_getitem]. rewrite Hname.
    cbn [from_option id mbind result_bind]. rewrite Hty. cbn [negb].
    rewrite Hc. cbn [mbind result_bind py_setitem writeback]. unfold save_data.
    destruct (write_ok w); cbn [guard respond status stored body];
      [|by split; [|apply after_failed_write_open]].
    split_and!; [done|done|..].
    + apply conversations_of_written. by rewrite lookup_insert_eq.
    + intros key Hk. rewrite field_of_written by by apply complete_insert.
      by rewrite lookup_insert_ne, (field_of_loaded _ _ _ Hl) by congruence.
Qed.

(** ** Adding a message (C2) *)

Lemma append_message_typed (d convs conv : gmap string json) (cid : string)
    (msgs : list json) (m : json) :
  d !! "conversations" = Some (JObj convs) → convs !! cid = Some (JObj conv) →
  conv !! "messages" = Some (JArr msgs) →
  append_message (JObj d) cid m =
    Ok (JObj (<["conversations" :=
                JObj (<[cid := JObj (<["messages" := JArr (msgs ++ [m])]> conv)]> convs)]> d)).
Proof.
  intros Hc Hcid Hm. unfold append_message. cbn [py_getitem]. rewrite Hc.
  cbn [mbind result_bind py_getitem]. rewrite Hcid. cbn [mbind result_bind py_getitem].
  by rewrite Hm.
Qed.

Lemma first_missing_object (p : gmap string json) :
  is_Some (p !! "who") → is_Some (p !! "text") →
  first_missing ["who"; "text"] (JObj p) = Ok None.
Proof.
  intros Hw Ht. cbn [first_missing py_in mbind result_bind].
  apply has_key_true in Hw as ->. by apply has_key_true in Ht as ->.
Qed.

(** The whole outcome of [add_message] on a well-typed state and payload. *)
Lemma add_message_typed (cid : string) (p : gmap string json) (w : world)
    (dk : disk) (d convs conv : gmap string json) (msgs : list json)
    (who text : json) :
  load_data dk = Ok (JObj d) → d !! "conversations" = Some (JObj convs) →
  convs !! cid = Some (JObj conv) → conv !! "messages" = Some (JArr msgs) →
  p !! "who" = Some who → p !! "text" = Some text →
  let message := new_message w who text (p !! "status") in
  add_message cid (JObj p) w dk =
    if write_ok w then
      Outcome 201 message
        (Some (Parsed (JObj (<["conversations" :=
           JObj (<[cid := JObj (<["messages" := JArr (msgs ++ [message])]> conv)]> convs)]> d))))
        (timer_for cid d who text (msgs ++ [message]))
    else respond 500 (error_body "Erro ao salvar mensagem") (after_failed_write w dk).
Proof.
  intros Hl Hc Hcid Hm Hw Ht message.
  unfold add_message. rewrite Hl. cbn [mbind result_bind py_getitem].
  rewrite Hc. cbn [mbind result_bind py_in].
  rewrite (proj2 (has_key_true convs cid)) by eauto. cbn [negb].
  rewrite (truthy_object p "who") by eauto. cbn [negb].
  rewrite first_missing_object by eauto. cbn [mbind result_bind py_getitem py_get].
  rewrite Hw, Ht. cbn [mbind result_bind].
  fold (new_message w who text (p !! "status")). fold message.
  rewrite (append_message_typed d convs conv cid msgs message) by done.
  cbn [mbind result_bind]. unfold save_data.
  destruct (write_ok w); [|done].
  cbn [guard mbind result_bind]. unfold timer_for.
  destruct (eq_str who "mine"); cbn [mbind result_bind py_get truthy andb]; [|done].
  rewrite (lookup_insert_ne d "conversations" "geminiEnabled") by done.
  destruct (truthy (default (JBool false) (d !! "geminiEnabled"))); [|done].
  cbn [py_getitem]. rewrite lookup_insert_eq. cbn [mbind result_bind py_getitem].
  rewrite lookup_insert_eq. cbn [mbind result_bind py_getitem].
  by rewrite lookup_insert_eq.
Qed.

(** C2 as the code has it.  The conversation exists with message list
    [msgs], the payload is an object with "who" and "text".  When the save
    succeeds the answer is 201 with the new message, whose id is the one
    [uuid.uuid4] returned, fresh among the stored messages whenever that
    identifier is unused, whose timestamp is the clock reading and whose
    status is the payload's or "sent"; the stored message list of the
    conversation is [msgs] followed by that message, the conversation's other
    entries, the other conversations and the other entries of the state are
    unchanged.  When the save fails the answer is 500, and the file is the
    one from before if it could not be opened for writing. *)
Theorem add_message_appends (cid : string) (p : gmap string json) (w : world)
    (dk : disk) (convs conv : gmap string json) (msgs : list json)
    (who text : json) :
  conversations_of dk = Some convs → convs !! cid = Some (JObj conv) →
  conv !! "messages" = Some (JArr msgs) →
  p !! "who" = Some who → p !! "text" = Some text →
  let o := add_message cid (JObj p) w dk in
  let message := new_message w who text (p !! "status") in
  if write_ok w then
    status o = 201 ∧ body o = message ∧
    messages_of (stored o) cid = Some (msgs ++ [message])%list ∧
    conversations_of (stored o)
      = Some (<[cid := JObj (<["messages" := JArr (msgs ++ [message])]> conv)]> convs) ∧
    (∀ key, key ≠ "conversations" → field_of (stored o) key = field_of dk key) ∧
    (unused_id (uuid4 w) convs →
     ∀ cid' conv' msgs' old,
       convs !! cid' = Some conv' → messages_in conv' = Some msgs' → old ∈ msgs' →
       py_getitem old "id" ≠ py_getitem (body o) "id")
  else status o = 500 ∧ (truncates w = false → stored o = dk).
Proof.
  intros (d & Hl & Hcomp & Hc)%conversations_of_inv Hcid Hm Hw Ht o message.
  subst o. rewrite (add_message_typed cid p w dk d convs conv msgs who text) by done.
  fold message. destruct (write_ok w); [|by split; [|apply after_failed_write_open]].
  cbn [status body stored].
  assert (conversations_of (Some (Parsed (JObj (<["conversations" :=
            JObj (<[cid := JObj (<["messages" := JArr (msgs ++ [message])]> conv)]> convs)]> d))))
          = Some (<[cid := JObj (<["messages" := JArr (msgs ++ [message])]> conv)]> convs))
    as Hconvs by (apply conversations_of_written; apply lookup_insert_eq).
  split_and!; [done|done| |done| |].
  - unfold messages_of. rewrite Hconvs. cbn. rewrite lookup_insert_eq. cbn.
    by rewrite lookup_insert_eq.
  - intros key Hk. rewrite field_of_written by by apply complete_insert.
    by rewrite lookup_insert_ne, (field_of_loaded _ _ _ Hl) by congruence.
  - intros Hfresh cid' conv' msgs' old H1 H2 H3.
    change (py_getitem message "id") with (Ok (JStr (uuid4 w)) : result json).
    by eapply Hfresh.
Qed.

(** ** The delayed notifier (C6) *)

Section Notifier.

Variable API_KEY : option string.
Variable py_str : json -> string.

Lemma generate_gemini_reply_failure (t : task) (w : world) (dk : disk) :
  generator_reply
    (generate_response API_KEY py_str w (task_prompt t) (task_context t)) = None →
  generate_gemini_reply API_KEY py_str t w dk = dk.
Proof.
  unfold generate_gemini_reply, generator_reply.
  destruct (generate_response _ _ _ _ _) as [| | | | | |m]; try done.
  cbn [py_get mbind result_bind].
  destruct (eq_str _ "success"); [|done]. intros Hr.
  cbn [py_getitem]. by rewrite Hr.
Qed.

Lemma generate_gemini_reply_unsaved (t : task) (w : world) (dk : disk) :
  write_ok w = false → truncates w = false →
  generate_gemini_reply API_KEY py_str t w dk = dk.
Proof.
  intros Hw Ht. unfold generate_gemini_reply.
  destruct (py_get _ "status" JNull) as [st|]; [|done]. cbn [mbind result_bind].
  destruct (eq_str st "success"); [|done].
  destruct (py_getitem _ "response") as [text|]; [|done]. cbn [mbind result_bind].
  destruct (load_data dk) as [data|]; [|done]. cbn [mbind result_bind].
  destruct (py_getitem data "conversations") as [convs|]; [|done]. cbn [mbind result_bind].
  destruct (py_in (task_conv t) convs) as [[]|]; [|done|done]. cbn [mbind result_bind].
  destruct (append_message data _ _) as [data'|]; [|done]. cbn [mbind result_bind].
  unfold save_data. rewrite Hw. by apply after_failed_write_open.
Qed.

Lemma generate_gemini_reply_absent (t : task) (w : world) (dk : disk)
    (convs : gmap string json) :
  conversations_of dk = Some convs → convs !! task_conv t = None →
  generate_gemini_reply API_KEY py_str t w dk = dk.
Proof.
  intros (d & Hl & _ & Hc)%conversations_of_inv Hcid. unfold generate_gemini_reply.
  destruct (py_get _ "status" JNull) as [st|]; [|done]. cbn [mbind result_bind].
  destruct (eq_str st "success"); [|done].
  destruct (py_getitem _ "response") as [text|]; [|done]. cbn [mbind result_bind].
  rewrite Hl. cbn [mbind result_bind py_getitem]. rewrite Hc.
  cbn [mbind result_bind py_in]. unfold has_key. by rewrite Hcid.
Qed.

Lemma generate_gemini_reply_success (t : task) (w : world) (dk : disk)
    (text : json) (d convs conv : gmap string json) (msgs : list json) :
  generator_reply
    (generate_response API_KEY py_str w (task_prompt t) (task_context t)) = Some text →
  load_data dk = Ok (JObj d) → d !! "conversations" = Some (JObj convs) →
  convs !! task_conv t = Some (JObj conv) → conv !! "messages" = Some (JArr msgs) →
  write_ok w = true →
  generate_gemini_reply API_KEY py_str t w dk =
    Some (Parsed (JObj (<["conversations" :=
      JObj (<[task_conv t :=
              JObj (<["messages" := JArr (msgs ++ [reply_message w text])]> conv)]> convs)]> d))).
Proof.
  unfold generate_gemini_reply, generator_reply.
  destruct (generate_response _ _ _ _ _) as [| | | | | |m]; try done.
  cbn [py_get mbind result_bind].
  destruct (eq_str _ "success"); [|done]. intros Hr Hl Hc Hcid Hm Hw.
  cbn [py_getitem]. rewrite Hr, Hl. cbn [mbind result_bind py_getitem]. rewrite Hc.
  cbn [mbind result_bind py_in]. rewrite (proj2 (has_key_true convs _)) by eauto.
  rewrite (append_message_typed d convs conv _ msgs) by done.
  cbn [mbind result_bind]. unfold save_data. by rewrite Hw.
Qed.

(** C6 as the code has it.  The timer started by a "mine" message posted
    while geminiEnabled holds carries the just-sent text and the last five
    messages that the conversation had when the message was posted, that
    message included.  When the timer fires, the generator is called with
    that text and that captured context.  If the generator does not succeed,
    or the target conversation is not in the state loaded afterwards, or the
    file cannot be opened for writing, the stored state is left as it was.
    If the generator succeeds, the conversation is there and the save
    succeeds, exactly one message is appended to the conversation, with who
    "their", status "delivered", the id that [uuid.uuid4] returned, fresh
    among the stored messages whenever that identifier is unused, and the
    clock reading; the rest of the state is unchanged. *)
Theorem notifier_outcome (t : task) (w : world) (dk : disk) :
  let r := generate_response API_KEY py_str w (task_prompt t) (task_context t) in
  let dk' := generate_gemini_reply API_KEY py_str t w dk in
  (∀ cid p w0 dk0 convs conv msgs text,
     conversations_of dk0 = Some convs → convs !! cid = Some (JObj conv) →
     conv !! "messages" = Some (JArr msgs) →
     p !! "who" = Some (JStr "mine") → p !! "text" = Some text →
     gemini_enabled dk0 = true → write_ok w0 = true →
     scheduled (add_message cid (JObj p) w0 dk0) =
       Some (Task cid text
               (JArr (last_n 5 (msgs ++ [new_message w0 (JStr "mine") text (p !! "status")]))))) ∧
  (generator_reply r = None → dk' = dk) ∧
  (write_ok w = false → truncates w = false → dk' = dk) ∧
  (∀ convs, conversations_of dk = Some convs → convs !! task_conv t = None →
            dk' = dk) ∧
  (∀ text convs conv msgs,
     generator_reply r = Some text → conversations_of dk = Some convs →
     convs !! task_conv t = Some (JObj conv) →
     conv !! "messages" = Some (JArr msgs) → write_ok w = true →
     messages_of dk' (task_conv t) = Some (msgs ++ [reply_message w text])%list ∧
     conversations_of dk' =
       Some (<[task_conv t :=
               JObj (<["messages" := JArr (msgs ++ [reply_message w text])]> conv)]> convs) ∧
     (∀ key, key ≠ "conversations" → field_of dk' key = field_of dk key) ∧
     (unused_id (uuid4 w) convs →
      ∀ cid' conv' msgs' old,
        convs !! cid' = Some conv' → messages_in conv' = Some msgs' → old ∈ msgs' →
        py_getitem old "id" ≠ py_getitem (reply_message w text) "id")).
Proof.
  intros r dk'. split_and!.
  - intros cid p w0 dk0 convs conv msgs text
      (d & Hl & Hcomp & Hc)%conversations_of_inv Hcid Hm Hwho Htext Hon Hw0.
    rewrite (add_message_typed cid p w0 dk0 d convs conv msgs (JStr "mine") text)
      by done.
    rewrite Hw0. cbn [scheduled]. unfold timer_for.
    unfold gemini_enabled in Hon. rewrite Hl in Hon. cbn [py_get] in Hon.
    by rewrite Hon.
  - apply generate_gemini_reply_failure.
  - apply generate_gemini_reply_unsaved.
  - apply generate_gemini_reply_absent.
  - intros text convs conv msgs Hr (d & Hl & Hcomp & Hc)%conversations_of_inv
      Hcid Hm Hw.
    unfold dk'.
    rewrite (generate_gemini_reply_success t w dk text d convs conv msgs) by done.
    assert (conversations_of (Some (Parsed (JObj (<["conversations" :=
              JObj (<[task_conv t :=
                JObj (<["messages" := JArr (msgs ++ [reply_message w text])]> conv)]> convs)]> d))))
            = Some (<[task_conv t :=
                JObj (<["messages" := JArr (msgs ++ [reply_message w text])]> conv)]> convs))
      as Hconvs by (apply conversations_of_written; apply lookup_insert_eq).
    split_and!; [|done| |].
    + unfold messages_of. rewrite Hconvs. cbn. rewrite lookup_insert_eq. cbn.
      by rewrite lookup_insert_eq.
    + intros key Hk. rewrite field_of_written by by apply complete_insert.
      by rewrite lookup_insert_ne, (field_of_loaded _ _ _ Hl) by congruence.
    + intros Hfresh cid' conv' msgs' old H1 H2 H3.
      change (py_getitem (reply_message w text) "id")
        with (Ok (JStr (uuid4 w)) : result json).
      by eapply Hfresh.
Qed.

End Notifier.

(** ** The default conversation (C1) *)

Lemma has_default_inv (dk : disk) :
  has_default dk →
  ∃ d convs, load_data dk = Ok (JObj d) ∧ complete d ∧
             d !! "conversations" = Some (JObj convs) ∧
             is_Some (convs !! "conv-default").
Proof.
  intros (convs & (d & Hl & Hcomp & Hc)%conversations_of_inv & Hdef). eauto 10.
Qed.

Lemma has_default_written (d convs : gmap string json) :
  d !! "conversations" = Some (JObj convs) → is_Some (convs !! "conv-default") →
  has_default (Some (Parsed (JObj d))).
Proof. intros Hc Hdef. exists convs. split; [by apply conversations_of_written|done]. Qed.

Lemma append_message_inv (d : gmap string json) (convs : gmap string json)
    (cid : string) (m data' : json) :
  d !! "conversations" = Some (JObj convs) →
  append_message (JObj d) cid m = Ok data' →
  ∃ conv', data' = JObj (<["conversations" := JObj (<[cid := conv']> convs)]> d).
Proof.
  intros Hc. unfold append_message. cbn [py_getitem]. rewrite Hc.
  cbn [mbind result_bind py_getitem].
  destruct (convs !! cid) as [conv|]; [|discriminate]. cbn [mbind result_bind].
  destruct (py_getitem conv "messages") as [msgs|] eqn:Hm; [|discriminate].
  cbn [mbind result_bind].
  destruct (py_append msgs m) as [msgs'|]; [|discriminate]. cbn [mbind result_bind].
  destruct conv; try discriminate. intros [= <-]. eauto.
Qed.

Lemma delete_default_present (w : world) (dk : disk) :
  has_default dk →
  delete_conversation "conv-default" w dk
  = respond 400 (error_body "Não é possível deletar a conversa padrão") dk.
Proof.
  intros (d & convs & Hl & _ & Hc & Hdef)%has_default_inv.
  unfold delete_conversation. rewrite Hl. cbn [mbind result_bind py_getitem].
  rewrite Hc. cbn [mbind result_bind py_in].
  by rewrite (proj2 (has_key_true convs _)).
Qed.

Lemma create_conversation_keeps_default (new_conv : json) (w : world) (dk : disk) :
  safe_write w = true → has_default dk → has_default (stored (create_conversation new_conv w dk)).
Proof.
  intros Hsafe Hd. destruct (has_default_inv _ Hd) as (d & convs & Hl & _ & Hc & Hdef).
  unfold create_conversation. rewrite Hl. cbn [mbind result_bind].
  destruct (if negb (truthy new_conv) then _ else _) as [[]|];
    cbn [mbind result_bind guard respond stored]; try done.
  destruct (py_getitem new_conv "name") as [name|];
    cbn [mbind result_bind guard respond stored py_getitem]; [|done].
  rewrite Hc. cbn [mbind result_bind py_setitem writeback]. rewrite (save_data_safe _ _ _ Hsafe).
  destruct (write_ok w); cbn [guard respond stored]; [|done].
  eapply has_default_written; [apply lookup_insert_eq|].
  by apply lookup_insert_is_Some'; right.
Qed.

Lemma add_message_keeps_default (cid : string) (message_data : json) (w : world)
    (dk : disk) :
  safe_write w = true → has_default dk → has_default (stored (add_message cid message_data w dk)).
Proof.
  intros Hsafe Hd. destruct (has_default_inv _ Hd) as (d & convs & Hl & _ & Hc & Hdef).
  unfold add_message. rewrite Hl. cbn [mbind result_bind py_getitem].
  rewrite Hc. cbn [mbind result_bind py_in].
  destruct (has_key convs cid); cbn [negb guard respond stored]; [|done].
  destruct (truthy message_data); cbn [negb guard respond stored]; [|done].
  destruct (first_missing _ message_data) as [[f|]|];
    cbn [mbind result_bind guard respond stored]; try done.
  destruct (py_getitem message_data "who") as [who|];
    cbn [mbind result_bind guard respond stored]; [|done].
  destruct (py_getitem message_data "text") as [text|];
    cbn [mbind result_bind guard respond stored]; [|done].
  destruct (py_get message_data "status" _) as [st|];
    cbn [mbind result_bind guard respond stored]; [|done].
  destruct (append_message (JObj d) cid _) as [data'|] eqn:Ha;
    cbn [mbind result_bind guard respond stored]; [|done].
  apply (append_message_inv _ _ _ _ _ Hc) in Ha as [conv' ->].
  rewrite (save_data_safe _ _ _ Hsafe). destruct (write_ok w); cbn [guard respond stored]; [|done].
  assert (has_default (Some (Parsed (JObj (<["conversations" :=
            JObj (<[cid := conv']> convs)]> d))))) as Hd'.
  { eapply has_default_written; [apply lookup_insert_eq|].
    by apply lookup_insert_is_Some'; right. }
  destruct (if eq_str who "mine" then _ else _) as [enabled|];
    cbn [mbind result_bind guard respond stored]; [|done].
  destruct (truthy enabled); cbn [mbind result_bind guard respond stored]; [|done].
  cbn [py_getitem]. rewrite lookup_insert_eq. cbn [mbind result_bind py_getitem].
  rewrite lookup_insert_eq. cbn [mbind result_bind].
  destruct (py_getitem conv' "messages") as [msgs|];
    cbn [mbind result_bind guard respond stored]; [|done].
  by destruct (py_slice_last 5 msgs).
Qed.

Lemma delete_conversation_keeps_default (cid : string) (w : world) (dk : disk) :
  safe_write w = true → has_default dk → has_default (stored (delete_conversation cid w dk)).
Proof.
  intros Hsafe Hd. destruct (has_default_inv _ Hd) as (d & convs & Hl & _ & Hc & Hdef).
  unfold delete_conversation. rewrite Hl. cbn [mbind result_bind py_getitem].
  rewrite Hc. cbn [mbind result_bind py_in].
  destruct (has_key convs cid); cbn [negb guard respond stored]; [|done].
  destruct (String.eqb_spec cid "conv-default") as [|Hne];
    cbn [guard respond stored]; [done|].
  cbn [py_delitem]. destruct (convs !! cid);
    cbn [mbind result_bind guard respond stored writeback py_getitem]; [|done].
  rewrite lookup_insert_ne by done.
  assert (is_Some (delete cid convs !! "conv-default")) as Hdef'
    by by rewrite lookup_delete_ne.
  destruct (d !! "currentConvId") as [cur|];
    cbn [mbind result_bind guard respond stored]; [|done].
  destruct (eq_str cur cid); cbn [py_setitem mbind result_bind];
    rewrite (save_data_safe _ _ _ Hsafe);
    destruct (write_ok w); cbn [guard respond stored]; try done.
  - eapply has_default_written; [|done].
    by rewrite lookup_insert_ne, lookup_insert_eq.
  - eapply has_default_written; [|done]. by rewrite lookup_insert_eq.
Qed.

Lemma clear_messages_keeps_default (cid : string) (w : world) (dk : disk) :
  safe_write w = true → has_default dk → has_default (stored (clear_messages cid w dk)).
Proof.
  intros Hsafe Hd. destruct (has_default_inv _ Hd) as (d & convs & Hl & _ & Hc & Hdef).
  unfold clear_messages. rewrite Hl. cbn [mbind result_bind py_getitem].
  rewrite Hc. cbn [mbind result_bind py_in].
  destruct (has_key convs cid); cbn [negb guard respond stored]; [|done].
  destruct (py_getitem (JObj convs) cid) as [conv|];
    cbn [mbind result_bind guard respond stored]; [|done].
  destruct (py_setitem conv "messages" _) as [conv'|];
    cbn [mbind result_bind guard respond stored writeback]; [|done].
  rewrite (save_data_safe _ _ _ Hsafe). destruct (write_ok w); cbn [guard respond stored]; [|done].
  eapply has_default_written; [apply lookup_insert_eq|].
  by apply lookup_insert_is_Some'; right.
Qed.

Lemma toggle_bot_keeps_default (w : world) (dk : disk) :
  safe_write w = true → has_default dk → has_default (stored (toggle_bot w dk)).
Proof.
  intros Hsafe Hd. destruct (has_default_inv _ Hd) as (d & convs & Hl & _ & Hc & Hdef).
  unfold toggle_bot. rewrite Hl. cbn [mbind result_bind py_get py_setitem].
  rewrite (save_data_safe _ _ _ Hsafe). destruct (write_ok w); cbn [guard respond stored]; [|done].
  cbn [py_getitem]. rewrite lookup_insert_eq. cbn [mbind result_bind guard respond stored].
  eapply has_default_written; [|done]. by rewrite lookup_insert_ne.
Qed.

Lemma toggle_gemini_keeps_default (w : world) (dk : disk) :
  safe_write w = true → has_default dk → has_default (stored (toggle_gemini w dk)).
Proof.
  intros Hsafe Hd. destruct (has_default_inv _ Hd) as (d & convs & Hl & _ & Hc & Hdef).
  unfold toggle_gemini. rewrite Hl. cbn [mbind result_bind py_get py_setitem].
  rewrite (save_data_safe _ _ _ Hsafe). destruct (write_ok w); cbn [guard respond stored]; [|done].
  cbn [py_getitem]. rewrite lookup_insert_eq. cbn [mbind result_bind guard respond stored].
  eapply has_default_written; [|done]. by rewrite lookup_insert_ne.
Qed.

(** Case analysis on the next Python operation of a handler. *)
Ltac step_bind :=
  match goal with
  | |- context [@mbind _ _ _ _ _ ?r] =>
      lazymatch r with
      | Ok _ => fail
      | Raise _ => fail
      | _ => destruct r eqn:?
      end
  end.

Ltac crunch :=
  repeat first
    [ progress cbn [mbind result_bind guard respond stored]
    | step_bind
    | case_match ];
  try done.

Section Invariant.

Variable API_KEY : option string.
Variable py_str : json -> string.

Lemma read_only_handlers (cid : string) (data : json) (w : world) (dk : disk) :
  stored (get_conversations dk) = dk ∧
  stored (get_conversation cid dk) = dk ∧
  stored (get_messages cid dk) = dk ∧
  stored (get_state dk) = dk ∧
  stored (get_gemini_status API_KEY dk) = dk ∧
  stored (generate_with_gemini API_KEY py_str data w dk) = dk.
Proof.
  split_and!.
  - unfold get_conversations. crunch.
  - unfold get_conversation. crunch.
  - unfold get_messages. crunch.
  - unfold get_state. crunch.
  - unfold get_gemini_status. crunch.
  - unfold generate_with_gemini. crunch.
Qed.

Lemma handle_keeps_default (r : request) (w : world) (dk : disk) :
  safe_write w = true → has_default dk →
  has_default (stored (handle API_KEY py_str r w dk)).
Proof.
  intros Hsafe Hd.
  destruct r as [|cid|new_conv|cid md|cid|cid|cid| | | |data|]; cbn [handle].
  - by rewrite (proj1 (read_only_handlers "" JNull w dk)).
  - by rewrite (proj1 (proj2 (read_only_handlers cid JNull w dk))).
  - by apply create_conversation_keeps_default.
  - by apply add_message_keeps_default.
  - by rewrite (proj1 (proj2 (proj2 (read_only_handlers cid JNull w dk)))).
  - by apply delete_conversation_keeps_default.
  - by apply clear_messages_keeps_default.
  - by rewrite (proj1 (proj2 (proj2 (proj2 (read_only_handlers "" JNull w dk))))).
  - by apply toggle_bot_keeps_default.
  - by apply toggle_gemini_keeps_default.
  - by rewrite (proj2 (proj2 (proj2 (proj2 (proj2 (read_only_handlers "" data w dk)))))).
  - by rewrite (proj1 (proj2 (proj2 (proj2 (proj2 (read_only_handlers "" JNull w dk)))))).
Qed.

Lemma generate_gemini_reply_keeps_default (t : task) (w : world) (dk : disk) :
  safe_write w = true → has_default dk → has_default (generate_gemini_reply API_KEY py_str t w dk).
Proof.
  intros Hsafe Hd. destruct (has_default_inv _ Hd) as (d & convs & Hl & _ & Hc & Hdef).
  unfold generate_gemini_reply.
  destruct (py_get _ "status" JNull) as [st|]; [|done]. cbn [mbind result_bind].
  destruct (eq_str st "success"); [|done].
  destruct (py_getitem _ "response") as [text|]; [|done]. cbn [mbind result_bind].
  rewrite Hl. cbn [mbind result_bind py_getitem]. rewrite Hc.
  cbn [mbind result_bind py_in].
  destruct (has_key convs (task_conv t)); [|done].
  destruct (append_message (JObj d) _ _) as [data'|] eqn:Ha; [|done].
  apply (append_message_inv _ _ _ _ _ Hc) in Ha as [conv' ->].
  cbn [mbind result_bind]. rewrite (save_data_safe _ _ _ Hsafe).
  destruct (write_ok w); cbn [snd]; [|done].
  eapply has_default_written; [apply lookup_insert_eq|].
  by apply lookup_insert_is_Some'; right.
Qed.

Lemma step_keeps_default (ev : event) (c : config) :
  safe_write (event_world ev) = true →
  has_default (store c) → has_default (store (step API_KEY py_str ev c)).
Proof.
  intros Hsafe Hd. destruct ev as [r w|i w]; cbn [step event_world] in *.
  - by apply handle_keeps_default.
  - destruct (timers c !! i); [|done]. by apply generate_gemini_reply_keeps_default.
Qed.

Lemma run_keeps_default (evs : list event) (c : config) :
  Forall (λ ev, safe_write (event_world ev) = true) evs →
  has_default (store c) → has_default (store (run API_KEY py_str evs c)).
Proof.
  intros Hevs. revert c.
  induction Hevs as [|ev evs Hev _ IH]; intros c Hd; [done|].
  unfold run. cbn [foldl]. apply IH. by apply step_keeps_default.
Qed.

Lemma typed_file_loads (dk : disk) :
  typed_file dk →
  ∃ d convs, load_data dk = Ok (JObj d) ∧ d !! "conversations" = Some (JObj convs).
Proof.
  destruct dk as [[|e|v]|]; cbn [typed_file].
  - intros _. by exists default_data, ∅.
  - done.
  - intros (d & -> & Hty). rewrite load_data_object.
    destruct (d !! "conversations") as [c|] eqn:Hc.
    + destruct (Hty c eq_refl) as [convs ->].
      exists (d ∪ default_data), convs. split; [done|].
      by apply lookup_union_Some_l.
    + exists (d ∪ default_data), ∅. split; [done|].
      by rewrite lookup_union_r.
  - intros _. by exists default_data, ∅.
Qed.

(** On a typed file [init_default_data] returns normally; when its save
    succeeds, the file holds a state with the default conversation. *)
Lemma init_default_data_establishes (w : world) (dk : disk) :
  typed_file dk → write_ok w = true →
  (∃ data, fst (init_default_data w dk) = Ok data) ∧
  has_default (snd (init_default_data w dk)).
Proof.
  intros (d & convs & Hl & Hc)%typed_file_loads Hw.
  unfold init_default_data, init_default_steps.
  rewrite Hl. cbn [mbind result_bind py_getitem]. rewrite Hc.
  cbn [mbind result_bind py_in]. unfold save_data. rewrite Hw.
  destruct (has_key convs "conv-default") eqn:Hk;
    cbn [negb mbind result_bind py_setitem writeback py_get fst snd].
  - split; [eauto|]. eapply has_default_written; [|by apply has_key_true].
    by rewrite !lookup_insert_ne.
  - split; [eauto|]. eapply has_default_written; [|apply (lookup_insert_is_Some' convs); by left].
    rewrite !lookup_insert_ne by done. apply lookup_insert_eq.
Qed.

(** C1 as the code has it.  Start from a backing file that is absent, is
    not JSON, or is an object whose conversations are a mapping, and let the
    save of [init_default_data] succeed.  Then initialization returns
    normally, and in every state reached afterwards by any sequence of
    requests and timer firings none of whose saves fails after the file was
    opened for writing, the stored conversations hold the key
    "conv-default"; a DELETE of "conv-default" in such a state is answered
    400 and changes nothing. *)
Theorem default_conversation_kept (w0 : world) (dk0 : disk)
    (pending : list task) (evs : list event) :
  typed_file dk0 → write_ok w0 = true →
  Forall (λ ev, safe_write (event_world ev) = true) evs →
  let c := run API_KEY py_str evs
             (Config (snd (init_default_data w0 dk0)) pending) in
  (∃ data, fst (init_default_data w0 dk0) = Ok data) ∧
  has_default (store c) ∧
  (∀ w, delete_conversation "conv-default" w (store c)
        = respond 400 (error_body "Não é possível deletar a conversa padrão")
            (store c)).
Proof.
  intros Hty Hw Hevs c.
  destruct (init_default_data_establishes w0 dk0 Hty Hw) as [Hok Hd].
  assert (has_default (store c)) as Hc by by apply run_keeps_default.
  split_and!; [done|done|]. intros w. by apply delete_default_present.
Qed.

End Invariant.

(** ** Concrete runs *)

Lemma seeded_conversations_eq : conversations_of seeded = Some seeded_conversations.
Proof. vm_compute. reflexivity. Qed.

Lemma with_test_conversations :
  conversations_of with_test =
  Some (<["conv-id-1" := new_conversation calm (JStr "Test")]> seeded_conversations).
Proof. vm_compute. reflexivity. Qed.

(** *** C10 *)

Lemma delete_default_existence_first_witness :
  (conversations_of seeded = Some seeded_conversations ∧
   delete_conversation "conv-default" calm seeded
   = respond 400 (error_body "Não é possível deletar a conversa padrão") seeded) ∧
  (conversations_of None = Some ∅ ∧
   delete_conversation "conv-default" calm None = respond 404 not_found None).
Proof.
  split; split.
  - exact seeded_conversations_eq.
  - exact (proj1 (delete_default_existence_first calm seeded seeded_conversations
                    seeded_conversations_eq)).
  - reflexivity.
  - exact (proj2 (delete_default_existence_first calm None ∅ eq_refl) eq_refl).
Defined.

(** *** C8 *)

Lemma gemini_off_no_reply_witness :
  gemini_enabled seeded = false ∧
  let c := Config seeded [] in
  let c' := step None no_repr (Request (AddMessage "conv-default" (JObj hi)) calm) c in
  scheduled (add_message "conv-default" (JObj hi) calm seeded) = None ∧
  timers c' = [] ∧
  run None no_repr [TimerFires 0 answering; TimerFires 0 answering] c' = c'.
Proof.
  assert (gemini_enabled seeded = false) as Hoff by (vm_compute; reflexivity).
  split; [exact Hoff|].
  destruct (gemini_off_no_reply None no_repr "conv-default" (JObj hi) calm
              (Config seeded []) Hoff) as (Hs & Ht & Hrun).
  split_and!; [exact Hs|exact Ht|].
  apply Hrun; [reflexivity|]. repeat constructor.
Defined.

(** *** C5 *)

Lemma generate_response_request_text_witness :
  (api_key_missing None = true ∧
   generate_response None no_repr answering (JStr "three") (JArr [asked; answered])
   = error_body "API key não configurada") ∧
  (api_key_missing (Some "key") = false ∧
   Forall well_formed_message [asked; answered] ∧
   build_prompt no_repr (JStr "three") (JArr [asked; answered])
   = Ok (JStr ("user: one" +:+ newline +:+ "model: two" +:+ newline +:+ "user: three"))).
Proof.
  split.
  - split; [reflexivity|].
    exact (proj1 (generate_response_request_text None no_repr answering (JStr "three")
                    [asked; answered]) eq_refl (JArr [asked; answered])).
  - assert (Forall well_formed_message [asked; answered]) as Hwf.
    { repeat constructor.
      - exists {[ "who" := JStr "mine"; "text" := JStr "one" ]}, (JStr "mine"), (JStr "one").
        split_and!; reflexivity.
      - exists {[ "who" := JStr "their"; "text" := JStr "two" ]}, (JStr "their"), (JStr "two").
        split_and!; reflexivity. }
    split_and!; [reflexivity|exact Hwf|].
    exact (proj1 (proj2 (generate_response_request_text (Some "key") no_repr answering
                           (JStr "three") [asked; answered]) eq_refl Hwf)).
Defined.

(** *** C1 *)

(** C1, where the claim as stated fails: when the save of
    [init_default_data] fails on a missing file, the file is still missing
    afterwards, and the state that every later request loads has no
    conversation at all. *)
Lemma init_unsaved_no_default :
  snd (init_default_data broken_disk None) = None ∧
  conversations_of (snd (init_default_data broken_disk None)) = Some ∅ ∧
  ¬ has_default (snd (init_default_data broken_disk None)).
Proof.
  split_and!; [reflexivity|reflexivity|].
  intros (convs & Hc & [v Hv]).
  change (Some (∅ : gmap string json) = Some convs) in Hc. injection Hc as <-.
  by rewrite lookup_empty in Hv.
Qed.

Lemma default_conversation_kept_witness :
  typed_file None ∧ write_ok calm = true ∧
  let evs := [ Request (DeleteConversation "conv-default") calm;
               Request (AddMessage "conv-default" (JObj hi)) broken_disk;
               Request ToggleGemini later;
               Request (AddMessage "conv-default" (JObj hi)) later;
               Request (ClearMessages "conv-default") later;
               TimerFires 0 answering ] in
  Forall (λ ev, safe_write (event_world ev) = true) evs ∧
  has_default (store (run (Some "key") no_repr evs (Config seeded []))).
Proof.
  split_and!; [exact I|reflexivity|].
  assert (Forall (λ ev, safe_write (event_world ev) = true)
            [ Request (DeleteConversation "conv-default") calm;
              Request (AddMessage "conv-default" (JObj hi)) broken_disk;
              Request ToggleGemini later;
              Request (AddMessage "conv-default" (JObj hi)) later;
              Request (ClearMessages "conv-default") later;
              TimerFires 0 answering ]) as Hevs by (repeat constructor).
  split; [exact Hevs|].
  exact (proj1 (proj2 (default_conversation_kept (Some "key") no_repr calm None [] _
                         I eq_refl Hevs))).
Defined.

(** After a successful initialisation, one POST whose save fails once the
    file has been opened for writing leaves a file that is not JSON: the
    state loaded from then on has no conversation, the default one
    included. *)
Lemma torn_write_loses_default :
  has_default seeded ∧
  status (add_message "conv-default" (JObj hi) torn_write seeded) = 500 ∧
  stored (add_message "conv-default" (JObj hi) torn_write seeded) = Some Unparsable ∧
  conversations_of (stored (add_message "conv-default" (JObj hi) torn_write seeded))
  = Some ∅.
Proof.
  split_and!; [|vm_compute; reflexivity..].
  exists seeded_conversations. split; [vm_compute; reflexivity|]. by eexists.
Qed.

(** *** C2 *)

(** C2, where the claim as stated fails: the conversation exists and the
    payload has "who" and "text", but the save fails; the answer is 500 and
    the stored conversation has the messages it had, with none appended. *)
Lemma add_message_unsaved :
  messages_of seeded "conv-default" = Some [welcome_message calm] ∧
  hi !! "who" = Some (JStr "mine") ∧ hi !! "text" = Some (JStr "hi") ∧
  status (add_message "conv-default" (JObj hi) broken_disk seeded) = 500 ∧
  messages_of (stored (add_message "conv-default" (JObj hi) broken_disk seeded))
    "conv-default" = Some [welcome_message calm].
Proof. split_and!; vm_compute; reflexivity. Qed.

Lemma add_message_appends_witness :
  conversations_of seeded = Some seeded_conversations ∧
  seeded_conversations !! "conv-default" = Some (JObj seeded_conversation) ∧
  seeded_conversation !! "messages" = Some (JArr [welcome_message calm]) ∧
  hi !! "who" = Some (JStr "mine") ∧ hi !! "text" = Some (JStr "hi") ∧
  status (add_message "conv-default" (JObj hi) later seeded) = 201 ∧
  messages_of (stored (add_message "conv-default" (JObj hi) later seeded))
    "conv-default"
  = Some [welcome_message calm; new_message later (JStr "mine") (JStr "hi") None] ∧
  write_ok broken_disk = false ∧ truncates broken_disk = false ∧
  status (add_message "conv-default" (JObj hi) broken_disk seeded) = 500 ∧
  stored (add_message "conv-default" (JObj hi) broken_disk seeded) = seeded.
Proof.
  pose proof (add_message_appends "conv-default" hi later seeded
                seeded_conversations seeded_conversation [welcome_message calm]
                (JStr "mine") (JStr "hi") seeded_conversations_eq
                eq_refl eq_refl eq_refl eq_refl) as H.
  cbv zeta in H. change (write_ok later) with true in H. cbv iota in H.
  destruct H as (Hs & _ & Hm & _).
  pose proof (add_message_appends "conv-default" hi broken_disk seeded
                seeded_conversations seeded_conversation [welcome_message calm]
                (JStr "mine") (JStr "hi") seeded_conversations_eq
                eq_refl eq_refl eq_refl eq_refl) as H'.
  cbv zeta in H'. change (write_ok broken_disk) with false in H'. cbv iota in H'.
  destruct H' as [Hs' Hst'].
  split_and!;
    [exact seeded_conversations_eq|reflexivity|reflexivity|reflexivity|reflexivity
    |exact Hs|exact Hm|reflexivity|reflexivity|exact Hs'|exact (Hst' eq_refl)].
Defined.

(** *** C3 *)

(** C3, where the claim as stated fails: the body has the non-empty name
    "Test", but the save fails; the answer is 500, not 201, and nothing is
    stored. *)
Lemma create_conversation_unsaved :
  test_name !! "name" = Some (JStr "Test") ∧ truthy (JStr "Test") = true ∧
  create_conversation (JObj test_name) broken_disk seeded
  = respond 500 (error_body "Erro ao salvar conversa") seeded.
Proof. split_and!; reflexivity. Qed.

Lemma create_conversation_outcome_witness :
  conversations_of seeded = Some seeded_conversations ∧
  (lacks_name JNull ∧
   create_conversation JNull calm seeded
   = respond 400 (error_body "Nome da conversa é obrigatório") seeded) ∧
  (lacks_name (JObj ∅) ∧
   create_conversation (JObj ∅) calm seeded
   = respond 400 (error_body "Nome da conversa é obrigatório") seeded) ∧
  (test_name !! "name" = Some (JStr "Test") ∧ truthy (JStr "Test") = true ∧
   status (create_conversation (JObj test_name) calm seeded) = 201 ∧
   body (create_conversation (JObj test_name) calm seeded)
   = new_conversation calm (JStr "Test")) ∧
  (write_ok broken_disk = false ∧ truncates broken_disk = false ∧
   status (create_conversation (JObj test_name) broken_disk seeded) = 500 ∧
   stored (create_conversation (JObj test_name) broken_disk seeded) = seeded).
Proof.
  assert (lacks_name JNull) as H1 by by left.
  assert (lacks_name (JObj ∅)) as H2 by (right; by exists ∅).
  pose proof (proj2 (create_conversation_outcome (JObj test_name) broken_disk seeded
                seeded_conversations seeded_conversations_eq)
              test_name (JStr "Test") eq_refl eq_refl eq_refl) as (_ & _ & H0).
  change (write_ok broken_disk) with false in H0. cbv iota in H0.
  destruct H0 as [Hs0 Hst0].
  split_and!;
    [exact seeded_conversations_eq|exact H1| |exact H2| |reflexivity|reflexivity| |
    |reflexivity|reflexivity|exact Hs0|exact (Hst0 eq_refl)].
  - exact (proj1 (create_conversation_outcome JNull calm seeded seeded_conversations
                    seeded_conversations_eq) H1).
  - exact (proj1 (create_conversation_outcome (JObj ∅) calm seeded seeded_conversations
                    seeded_conversations_eq) H2).
  - pose proof (proj2 (create_conversation_outcome (JObj test_name) calm seeded
                    seeded_conversations seeded_conversations_eq)
                  test_name (JStr "Test") eq_refl eq_refl eq_refl) as (_ & _ & H).
    change (write_ok calm) with true in H. cbv iota in H. exact (proj1 H).
  - pose proof (proj2 (create_conversation_outcome (JObj test_name) calm seeded
                    seeded_conversations seeded_conversations_eq)
                  test_name (JStr "Test") eq_refl eq_refl eq_refl) as (_ & _ & H).
    change (write_ok calm) with true in H. cbv iota in H. exact (proj1 (proj2 H)).
Defined.

(** *** C7 *)

(** C7, where the claim as stated fails: a toggle whose save fails answers
    500 with an error and not with the negated flag; and of two toggles, the
    first saved and the second not, the flag ends negated. *)
Lemma toggle_unsaved :
  field_of seeded "simulateBot" = Some (JBool false) ∧
  toggle_bot broken_disk seeded
  = respond 500 (error_body "Erro ao salvar configuração") seeded ∧
  field_of (stored (toggle_bot broken_disk (stored (toggle_bot calm seeded))))
    "simulateBot" = Some (JBool true).
Proof. split_and!; vm_compute; reflexivity. Qed.

Lemma toggle_twice_witness :
  (field_of seeded "simulateBot" = Some (JBool false) ∧
   status (toggle_bot calm seeded) = 200 ∧
   py_getitem (body (toggle_bot calm seeded)) "simulateBot" = Ok (JBool true) ∧
   field_of (stored (toggle_bot later (stored (toggle_bot calm seeded))))
     "simulateBot" = Some (JBool false)) ∧
  (field_of seeded "geminiEnabled" = Some (JBool false) ∧
   py_getitem (body (toggle_gemini calm seeded)) "geminiEnabled" = Ok (JBool true) ∧
   field_of (stored (toggle_gemini later (stored (toggle_gemini calm seeded))))
     "geminiEnabled" = Some (JBool false)) ∧
  (write_ok broken_disk = false ∧ truncates broken_disk = false ∧
   status (toggle_bot broken_disk seeded) = 500 ∧
   stored (toggle_bot broken_disk seeded) = seeded).
Proof.
  pose proof (proj1 toggle_twice broken_disk later seeded false eq_refl) as [H0 _].
  change (write_ok broken_disk) with false in H0. cbv iota in H0.
  destruct H0 as [Hs0 Hst0].
  split; [|split; [|split_and!; [reflexivity|reflexivity|exact Hs0|exact (Hst0 eq_refl)]]].
  - pose proof (proj1 toggle_twice calm later seeded false eq_refl) as [H1 H2].
    change (write_ok calm) with true in H1. cbv iota in H1.
    destruct H1 as (Hs & Hb & _). destruct (H2 eq_refl eq_refl) as [Hf _].
    split_and!; [reflexivity|exact Hs|exact Hb|exact Hf].
  - pose proof (proj2 toggle_twice calm later seeded false eq_refl) as [H1 H2].
    change (write_ok calm) with true in H1. cbv iota in H1.
    destruct H1 as (_ & Hb & _). destruct (H2 eq_refl eq_refl) as [Hf _].
    split_and!; [reflexivity|exact Hb|exact Hf].
Defined.

(** *** C9 *)

(** C9, where the claim as stated fails: the conversation "conv-id-1" is
    present and is not the default one, but the save fails; the answer is
    500 and the conversation is still stored. *)
Lemma delete_conversation_unsaved :
  is_Some (default ∅ (conversations_of with_test) !! "conv-id-1") ∧
  delete_conversation "conv-id-1" broken_disk with_test
  = respond 500 (error_body "Erro ao salvar alterações") with_test ∧
  conversations_of (stored (delete_conversation "conv-id-1" broken_disk with_test))
  = conversations_of with_test.
Proof.
  split_and!; [|vm_compute; reflexivity..].
  rewrite with_test_conversations. cbn. by rewrite lookup_insert_eq.
Qed.

Lemma delete_conversation_effect_witness :
  conversations_of with_test
  = Some (<["conv-id-1" := new_conversation calm (JStr "Test")]> seeded_conversations) ∧
  is_Some (<["conv-id-1" := new_conversation calm (JStr "Test")]> seeded_conversations
           !! "conv-id-1") ∧
  "conv-id-1" ≠ "conv-default" ∧
  status (delete_conversation "conv-id-1" later with_test) = 200 ∧
  conversations_of (stored (delete_conversation "conv-id-1" later with_test))
  = Some (delete "conv-id-1"
            (<["conv-id-1" := new_conversation calm (JStr "Test")]> seeded_conversations)) ∧
  write_ok broken_disk = false ∧ truncates broken_disk = false ∧
  status (delete_conversation "conv-id-1" broken_disk with_test) = 500 ∧
  stored (delete_conversation "conv-id-1" broken_disk with_test) = with_test.
Proof.
  assert (is_Some (<["conv-id-1" := new_conversation calm (JStr "Test")]>
                     seeded_conversations !! "conv-id-1")) as Hin
    by (rewrite lookup_insert_eq; eauto).
  assert ("conv-id-1" ≠ "conv-default") as Hne by discriminate.
  pose proof (delete_conversation_effect "conv-id-1" later with_test _
                with_test_conversations Hin Hne) as H.
  cbv zeta in H. change (write_ok later) with true in H. cbv iota in H.
  destruct H as (Hs & Hc & _).
  pose proof (delete_conversation_effect "conv-id-1" broken_disk with_test _
                with_test_conversations Hin Hne) as H0.
  cbv zeta in H0. change (write_ok broken_disk) with false in H0. cbv iota in H0.
  destruct H0 as [Hs0 Hst0].
  split_and!; [exact with_test_conversations|exact Hin|exact Hne|exact Hs|exact Hc
              |reflexivity|reflexivity|exact Hs0|exact (Hst0 eq_refl)].
Defined.

(** *** C6 *)

(** C6, where the claim as stated fails: when the first timer fires after
    the second post, the context handed to the generator is the one captured
    at the first post, two messages, and not the last five messages that the
    conversation has in the reloaded state, which are three; with a
    generator that answers with the text it was sent, the appended reply
    differs from the one the notifier of the specification appends. *)
Lemma notifier_context_is_snapshot :
  timers two_posts !! 0 = Some first_timer ∧
  task_context first_timer = JArr [welcome_message calm; message_hi] ∧
  last_n 5 <$> messages_of (store two_posts) "conv-default"
  = Some [welcome_message calm; message_hi; message_there] ∧
  last_text (generate_gemini_reply (Some "key") no_repr first_timer answering
               (store two_posts))
  ≠ last_text (claimed_notifier (Some "key") no_repr first_timer answering
                 (store two_posts)).
Proof.
  split_and!; [vm_compute; reflexivity..|].
  intros H. vm_compute in H. discriminate.
Qed.

Lemma notifier_outcome_witness :
  (conversations_of enabled = Some seeded_conversations ∧
   seeded_conversations !! "conv-default" = Some (JObj seeded_conversation) ∧
   seeded_conversation !! "messages" = Some (JArr [welcome_message calm]) ∧
   hi !! "who" = Some (JStr "mine") ∧ hi !! "text" = Some (JStr "hi") ∧
   gemini_enabled enabled = true ∧ write_ok later = true ∧
   scheduled (add_message "conv-default" (JObj hi) later enabled) = Some first_timer) ∧
  (generator_reply (generate_response (Some "key") no_repr calm
                      (task_prompt first_timer) (task_context first_timer)) = None ∧
   generate_gemini_reply (Some "key") no_repr first_timer calm (store two_posts)
   = store two_posts) ∧
  (write_ok unwritable = false ∧ truncates unwritable = false ∧
   generate_gemini_reply (Some "key") no_repr first_timer unwritable (store two_posts)
   = store two_posts) ∧
  (conversations_of seeded = Some seeded_conversations ∧
   seeded_conversations !! "gone" = None ∧
   generate_gemini_reply (Some "key") no_repr (Task "gone" (JStr "hi") (JArr []))
     answering seeded = seeded) ∧
  (generator_reply (generate_response (Some "key") no_repr answering
                      (JStr "hi") (JArr [])) = Some (JStr "hi") ∧
   messages_of (generate_gemini_reply (Some "key") no_repr
                  (Task "conv-default" (JStr "hi") (JArr [])) answering seeded)
     "conv-default"
   = Some [welcome_message calm; reply_message answering (JStr "hi")]).
Proof.
  assert (conversations_of enabled = Some seeded_conversations) as Hen
    by (vm_compute; reflexivity).
  assert (gemini_enabled enabled = true) as Hon by (vm_compute; reflexivity).
  assert (generator_reply (generate_response (Some "key") no_repr calm
            (task_prompt first_timer) (task_context first_timer)) = None) as Hfail
    by (vm_compute; reflexivity).
  assert (generator_reply (generate_response (Some "key") no_repr answering
            (JStr "hi") (JArr [])) = Some (JStr "hi")) as Hok
    by (vm_compute; reflexivity).
  split_and!;
    [exact Hen|reflexivity|reflexivity|reflexivity|reflexivity|exact Hon|reflexivity
    | |exact Hfail| |reflexivity|reflexivity|
    |exact seeded_conversations_eq|reflexivity| |exact Hok|].
  - exact (proj1 (notifier_outcome (Some "key") no_repr first_timer calm seeded)
             "conv-default" hi later enabled seeded_conversations seeded_conversation
             [welcome_message calm] (JStr "hi") Hen eq_refl eq_refl eq_refl eq_refl
             Hon eq_refl).
  - exact (proj1 (proj2 (notifier_outcome (Some "key") no_repr first_timer calm
                           (store two_posts))) Hfail).
  - exact (proj1 (proj2 (proj2 (notifier_outcome (Some "key") no_repr first_timer
                                  unwritable (store two_posts)))) eq_refl eq_refl).
  - exact (proj1 (proj2 (proj2 (proj2 (notifier_outcome (Some "key") no_repr
             (Task "gone" (JStr "hi") (JArr [])) answering seeded))))
             seeded_conversations seeded_conversations_eq eq_refl).
  - exact (proj1 (proj2 (proj2 (proj2 (proj2 (notifier_outcome (Some "key") no_repr
             (Task "conv-default" (JStr "hi") (JArr [])) answering seeded))))
             (JStr "hi") seeded_conversations seeded_conversation
             [welcome_message calm] Hok seeded_conversations_eq eq_refl eq_refl eq_refl)).
Defined.

(** * Further properties of the handlers *)

(** ** Unknown conversations and rejected payloads *)

(** X1: for an id that the stored conversations do not hold, the five
    handlers that take a conversation id answer 404 "Conversa não
    encontrada", write nothing and start no timer; add_message does so
    whatever the payload is. *)
Theorem unknown_conversation_404 (cid : string) (message_data : json) (w : world)
    (dk : disk) (convs : gmap string json) :
  conversations_of dk = Some convs → convs !! cid = None →
  get_conversation cid dk = respond 404 not_found dk ∧
  get_messages cid dk = respond 404 not_found dk ∧
  add_message cid message_data w dk = respond 404 not_found dk ∧
  delete_conversation cid w dk = respond 404 not_found dk ∧
  clear_messages cid w dk = respond 404 not_found dk.
Proof.
  intros (d & Hl & _ & Hc)%conversations_of_inv Hcid.
  assert (has_key convs cid = false) as Hk by (unfold has_key; by rewrite Hcid).
  split_and!.
  - unfold get_conversation. rewrite Hl. cbn [mbind result_bind py_getitem].
    rewrite Hc. cbn [mbind result_bind py_get]. by rewrite Hcid.
  - unfold get_messages. rewrite Hl. cbn [mbind result_bind py_getitem].
    rewrite Hc. cbn [mbind result_bind py_in]. by rewrite Hk.
  - unfold add_message. rewrite Hl. cbn [mbind result_bind py_getitem].
    rewrite Hc. cbn [mbind result_bind py_in]. by rewrite Hk.
  - unfold delete_conversation. rewrite Hl. cbn [mbind result_bind py_getitem].
    rewrite Hc. cbn [mbind result_bind py_in]. by rewrite Hk.
  - unfold clear_messages. rewrite Hl. cbn [mbind result_bind py_getitem].
    rewrite Hc. cbn [mbind result_bind py_in]. by rewrite Hk.
Qed.

Lemma unknown_conversation_404_witness :
  conversations_of seeded = Some seeded_conversations ∧
  seeded_conversations !! "conv-x" = None ∧
  add_message "conv-x" JNull calm seeded = respond 404 not_found seeded ∧
  clear_messages "conv-x" calm seeded = respond 404 not_found seeded.
Proof.
  pose proof (unknown_conversation_404 "conv-x" JNull calm seeded seeded_conversations
                seeded_conversations_eq eq_refl) as (_ & _ & Ha & _ & Hc).
  split_and!; [exact seeded_conversations_eq|reflexivity|exact Ha|exact Hc].
Defined.

(** X2: for a conversation that exists, add_message answers 400 and writes
    nothing when the payload is falsy ("Dados da mensagem são
    obrigatórios"), when it is an object without "who" ("Campo 'who' é
    obrigatório"), and when it has "who" but no "text" ("Campo 'text' é
    obrigatório"): the fields are checked in that order. *)
Theorem add_message_rejects (cid : string) (message_data : json) (w : world)
    (dk : disk) (convs : gmap string json) :
  conversations_of dk = Some convs → is_Some (convs !! cid) →
  (truthy message_data = false →
   add_message cid message_data w dk
   = respond 400 (error_body "Dados da mensagem são obrigatórios") dk) ∧
  (∀ p, message_data = JObj p → truthy (JObj p) = true → p !! "who" = None →
   add_message cid message_data w dk
   = respond 400 (error_body "Campo 'who' é obrigatório") dk) ∧
  (∀ p, message_data = JObj p → is_Some (p !! "who") → p !! "text" = None →
   add_message cid message_data w dk
   = respond 400 (error_body "Campo 'text' é obrigatório") dk).
Proof.
  intros (d & Hl & _ & Hc)%conversations_of_inv Hin.
  apply has_key_true in Hin as Hk.
  split_and!.
  - intros Hf. unfold add_message. rewrite Hl. cbn [mbind result_bind py_getitem].
    rewrite Hc. cbn [mbind result_bind py_in]. by rewrite Hk, Hf.
  - intros p -> Ht Hw. unfold add_message. rewrite Hl. cbn [mbind result_bind py_getitem].
    rewrite Hc. cbn [mbind result_bind py_in]. rewrite Hk, Ht.
    cbn [negb first_missing py_in mbind result_bind]. unfold has_key at 1. by rewrite Hw.
  - intros p -> Hw Ht. unfold add_message. rewrite Hl. cbn [mbind result_bind py_getitem].
    rewrite Hc. cbn [mbind result_bind py_in]. rewrite Hk, (truthy_object p "who") by done.
    cbn [negb first_missing py_in mbind result_bind].
    rewrite (proj2 (has_key_true p "who")) by done. cbn [negb].
    unfold has_key at 1. by rewrite Ht.
Qed.

Lemma add_message_rejects_witness :
  conversations_of seeded = Some seeded_conversations ∧
  is_Some (seeded_conversations !! "conv-default") ∧
  add_message "conv-default" (JObj ∅) calm seeded
  = respond 400 (error_body "Dados da mensagem são obrigatórios") seeded ∧
  add_message "conv-default" (JObj {[ "text" := JStr "hi" ]}) calm seeded
  = respond 400 (error_body "Campo 'who' é obrigatório") seeded ∧
  add_message "conv-default" (JObj {[ "who" := JStr "mine" ]}) calm seeded
  = respond 400 (error_body "Campo 'text' é obrigatório") seeded.
Proof.
  assert (is_Some (seeded_conversations !! "conv-default")) as Hin by (eexists; reflexivity).
  split_and!; [exact seeded_conversations_eq|exact Hin|..].
  - exact (proj1 (add_message_rejects "conv-default" (JObj ∅) calm seeded
                    seeded_conversations seeded_conversations_eq Hin) eq_refl).
  - exact (proj1 (proj2 (add_message_rejects "conv-default" _ calm seeded
                    seeded_conversations seeded_conversations_eq Hin))
             {[ "text" := JStr "hi" ]} eq_refl eq_refl eq_refl).
  - assert (is_Some (({[ "who" := JStr "mine" ]} : gmap string json) !! "who")) as Hw
      by (eexists; reflexivity).
    exact (proj2 (proj2 (add_message_rejects "conv-default" _ calm seeded
                    seeded_conversations seeded_conversations_eq Hin))
             {[ "who" := JStr "mine" ]} eq_refl Hw eq_refl).
Defined.

(** ** Clearing a conversation *)

(** X3: for a conversation that exists, clear_messages with a successful
    save answers 200, leaves the conversation with an empty message list and
    its other entries as they were, leaves the other conversations and the
    rest of the state unchanged, and a following get_messages answers 200
    with the empty list; with a failed save it answers 500, and the file is
    the one from before if it could not be opened for writing. *)
Theorem clear_messages_effect (cid : string) (w : world) (dk : disk)
    (convs conv : gmap string json) :
  conversations_of dk = Some convs → convs !! cid = Some (JObj conv) →
  let o := clear_messages cid w dk in
  if write_ok w then
    status o = 200 ∧
    conversations_of (stored o)
      = Some (<[cid := JObj (<["messages" := JArr []]> conv)]> convs) ∧
    (∀ key, key ≠ "conversations" → field_of (stored o) key = field_of dk key) ∧
    get_messages cid (stored o) = respond 200 (JArr []) (stored o)
  else status o = 500 ∧ (truncates w = false → stored o = dk).
Proof.
  intros (d & Hl & Hcomp & Hc)%conversations_of_inv Hcid o. subst o.
  unfold clear_messages. rewrite Hl. cbn [mbind result_bind py_getitem].
  rewrite Hc. cbn [mbind result_bind py_in py_getitem].
  rewrite (proj2 (has_key_true convs cid)) by eauto. rewrite Hcid.
  cbn [negb mbind result_bind py_setitem writeback]. unfold save_data.
  destruct (write_ok w); cbn [guard respond status stored];
    [|by split; [|apply after_failed_write_open]].
  set (d' := <["conversations" := _]> d).
  assert (complete d') as Hcomp' by by apply complete_insert.
  split_and!; [done|..].
  - apply conversations_of_written. apply lookup_insert_eq.
  - intros key Hk. rewrite field_of_written by done.
    unfold d'. by rewrite lookup_insert_ne, (field_of_loaded _ _ _ Hl) by congruence.
  - unfold get_messages. rewrite load_data_complete by done.
    assert (d' !! "conversations"
            = Some (JObj (<[cid := JObj (<["messages" := JArr []]> conv)]> convs)))
      as Hd' by apply lookup_insert_eq.
    cbn [mbind result_bind py_getitem]. rewrite Hd'.
    cbn [mbind result_bind py_in py_getitem]. unfold has_key. rewrite !lookup_insert_eq.
    cbn [negb mbind result_bind py_getitem]. by rewrite lookup_insert_eq.
Qed.

Lemma clear_messages_effect_witness :
  conversations_of seeded = Some seeded_conversations ∧
  seeded_conversations !! "conv-default" = Some (JObj seeded_conversation) ∧
  status (clear_messages "conv-default" calm seeded) = 200 ∧
  get_messages "conv-default" (stored (clear_messages "conv-default" calm seeded))
  = respond 200 (JArr []) (stored (clear_messages "conv-default" calm seeded)) ∧
  write_ok broken_disk = false ∧ truncates broken_disk = false ∧
  status (clear_messages "conv-default" broken_disk seeded) = 500 ∧
  stored (clear_messages "conv-default" broken_disk seeded) = seeded.
Proof.
  pose proof (clear_messages_effect "conv-default" calm seeded seeded_conversations
                seeded_conversation seeded_conversations_eq eq_refl) as H.
  cbv zeta in H. change (write_ok calm) with true in H. cbv iota in H.
  destruct H as (Hs & _ & _ & Hg).
  pose proof (clear_messages_effect "conv-default" broken_disk seeded seeded_conversations
                seeded_conversation seeded_conversations_eq eq_refl) as H0.
  cbv zeta in H0. change (write_ok broken_disk) with false in H0. cbv iota in H0.
  destruct H0 as [Hs0 Hst0].
  split_and!; [exact seeded_conversations_eq|reflexivity|exact Hs|exact Hg
              |reflexivity|reflexivity|exact Hs0|exact (Hst0 eq_refl)].
Defined.

(** ** What the handlers never do *)

Lemma add_message_other_sender (cid : string) (message_data : json) (w : world)
    (dk : disk) :
  py_getitem message_data "who" ≠ Ok (JStr "mine") →
  scheduled (add_message cid message_data w dk) = None.
Proof.
  intros Hwho. unfold add_message.
  destruct (load_data dk) as [data|]; [|done]. cbn [mbind result_bind].
  destruct (py_getitem data "conversations") as [convs|]; [|done]. cbn [mbind result_bind].
  destruct (py_in cid convs) as [[]|]; [|done|done]. cbn [mbind result_bind negb].
  destruct (truthy message_data); [|done]. cbn [negb].
  destruct (first_missing _ message_data) as [[f|]|]; [done| |done].
  cbn [mbind result_bind].
  destruct (py_getitem message_data "who") as [who|]; [|done]. cbn [mbind result_bind].
  destruct (py_getitem message_data "text") as [text|]; [|done]. cbn [mbind result_bind].
  destruct (py_get message_data "status" _) as [st|]; [|done]. cbn [mbind result_bind].
  destruct (append_message data cid _) as [data'|]; [|done]. cbn [mbind result_bind].
  unfold save_data. destruct (write_ok w); [|done].
  cbn [guard mbind result_bind].
  assert (eq_str who "mine" = false) as -> by (apply eq_str_false; congruence).
  done.
Qed.

Ltac crunch_timer :=
  repeat first
    [ progress cbn [mbind result_bind guard respond scheduled]
    | step_bind
    | case_match ];
  done.

Section Never.

Variable API_KEY : option string.
Variable py_str : json -> string.

Lemma read_only_outcomes (cid : string) (data : json) (w : world) (dk : disk) :
  (stored (get_conversations dk) = dk ∧ scheduled (get_conversations dk) = None) ∧
  (stored (get_conversation cid dk) = dk ∧ scheduled (get_conversation cid dk) = None) ∧
  (stored (get_messages cid dk) = dk ∧ scheduled (get_messages cid dk) = None) ∧
  (stored (get_state dk) = dk ∧ scheduled (get_state dk) = None) ∧
  (stored (get_gemini_status API_KEY dk) = dk ∧
   scheduled (get_gemini_status API_KEY dk) = None) ∧
  (stored (generate_with_gemini API_KEY py_str data w dk) = dk ∧
   scheduled (generate_with_gemini API_KEY py_str data w dk) = None).
Proof.
  split_and!.
  - unfold get_conversations. crunch.
  - unfold get_conversations. crunch_timer.
  - unfold get_conversation. crunch.
  - unfold get_conversation. crunch_timer.
  - unfold get_messages. crunch.
  - unfold get_messages. crunch_timer.
  - unfold get_state. crunch.
  - unfold get_state. crunch_timer.
  - unfold get_gemini_status. crunch.
  - unfold get_gemini_status. crunch_timer.
  - unfold generate_with_gemini. crunch.
  - unfold generate_with_gemini. crunch_timer.
Qed.

(** X4: the handlers of the GET routes and of /api/gemini/generate never
    write the backing file and never start a timer, whatever the file holds
    and whatever they answer. *)
Theorem read_only_requests (cid : string) (data : json) (w : world) (dk : disk) :
  (stored (get_conversations dk) = dk ∧ scheduled (get_conversations dk) = None) ∧
  (stored (get_conversation cid dk) = dk ∧ scheduled (get_conversation cid dk) = None) ∧
  (stored (get_messages cid dk) = dk ∧ scheduled (get_messages cid dk) = None) ∧
  (stored (get_state dk) = dk ∧ scheduled (get_state dk) = None) ∧
  (stored (get_gemini_status API_KEY dk) = dk ∧
   scheduled (get_gemini_status API_KEY dk) = None) ∧
  (stored (generate_with_gemini API_KEY py_str data w dk) = dk ∧
   scheduled (generate_with_gemini API_KEY py_str data w dk) = None).
Proof. apply read_only_outcomes. Qed.

(** X5: add_message is the only handler that starts a timer: every other
    request leaves the pending timers as they are. *)
Theorem only_add_message_schedules (r : request) (w : world) (c : config) :
  is_add_message r = false →
  scheduled (handle API_KEY py_str r w (store c)) = None ∧
  timers (step API_KEY py_str (Request r w) c) = timers c.
Proof.
  intros Hr.
  assert (scheduled (handle API_KEY py_str r w (store c)) = None) as Hn.
  { destruct r as [|cid|new_conv|cid md|cid|cid|cid| | | |data|]; try discriminate;
      cbn [handle];
      try (by apply (read_only_outcomes "" JNull w (store c)));
      try (by apply (read_only_outcomes cid JNull w (store c)));
      try (by apply (read_only_outcomes "" data w (store c))).
    - unfold create_conversation. crunch_timer.
    - unfold delete_conversation. crunch_timer.
    - unfold clear_messages. crunch_timer.
    - unfold toggle_bot. crunch_timer.
    - unfold toggle_gemini. crunch_timer. }
  split; [done|]. cbn [step timers]. rewrite Hn. cbn. by rewrite (right_id_L [] app).
Qed.

(** X6: a message whose "who" is not the string "mine" starts no timer, even
    when geminiEnabled is true. *)
Theorem other_sender_no_timer (cid : string) (message_data : json) (w : world)
    (c : config) :
  py_getitem message_data "who" ≠ Ok (JStr "mine") →
  scheduled (add_message cid message_data w (store c)) = None ∧
  timers (step API_KEY py_str (Request (AddMessage cid message_data) w) c) = timers c.
Proof.
  intros Hwho. pose proof (add_message_other_sender cid message_data w (store c) Hwho) as Hn.
  split; [done|]. cbn [step handle timers]. rewrite Hn. cbn. by rewrite (right_id_L [] app).
Qed.

End Never.

Lemma only_add_message_schedules_witness :
  is_add_message ToggleGemini = false ∧
  timers (step (Some "key") no_repr (Request ToggleGemini later) two_posts)
  = timers two_posts.
Proof.
  split; [reflexivity|].
  exact (proj2 (only_add_message_schedules (Some "key") no_repr ToggleGemini later
                  two_posts eq_refl)).
Defined.

Lemma other_sender_no_timer_witness :
  py_getitem (JObj {[ "who" := JStr "their"; "text" := JStr "hi" ]}) "who"
  ≠ Ok (JStr "mine") ∧
  scheduled (add_message "conv-default"
               (JObj {[ "who" := JStr "their"; "text" := JStr "hi" ]}) later enabled)
  = None.
Proof.
  assert (py_getitem (JObj {[ "who" := JStr "their"; "text" := JStr "hi" ]}) "who"
          ≠ Ok (JStr "mine")) as Hwho by (vm_compute; discriminate).
  split; [exact Hwho|].
  exact (proj1 (other_sender_no_timer None no_repr "conv-default" _ later
                  (Config enabled []) Hwho)).
Defined.

(** ** Reading back what was written *)

(** X7: after an add_message whose save succeeds, get_messages for the same
    conversation answers 200 with the former messages followed by the
    message that the POST returned. *)
Theorem posted_message_is_listed (cid : string) (p : gmap string json) (w : world)
    (dk : disk) (convs conv : gmap string json) (msgs : list json)
    (who text : json) :
  conversations_of dk = Some convs → convs !! cid = Some (JObj conv) →
  conv !! "messages" = Some (JArr msgs) →
  p !! "who" = Some who → p !! "text" = Some text → write_ok w = true →
  let o := add_message cid (JObj p) w dk in
  get_messages cid (stored o) = respond 200 (JArr (msgs ++ [body o])) (stored o).
Proof.
  intros (d & Hl & Hcomp & Hc)%conversations_of_inv Hcid Hm Hw Ht Hok o. subst o.
  rewrite (add_message_typed cid p w dk d convs conv msgs who text) by done.
  rewrite Hok. cbn [stored body].
  set (message := new_message w who text (p !! "status")).
  set (d' := <["conversations" := _]> d).
  assert (complete d') as Hcomp' by by apply complete_insert.
  assert (d' !! "conversations"
          = Some (JObj (<[cid := JObj (<["messages" := JArr (msgs ++ [message])]> conv)]> convs)))
    as Hd' by apply lookup_insert_eq.
  unfold get_messages. rewrite load_data_complete by done.
  cbn [mbind result_bind py_getitem]. rewrite Hd'.
  cbn [mbind result_bind py_in py_getitem]. unfold has_key. rewrite !lookup_insert_eq.
  cbn [negb mbind result_bind py_getitem]. by rewrite lookup_insert_eq.
Qed.

Lemma posted_message_is_listed_witness :
  conversations_of seeded = Some seeded_conversations ∧
  get_messages "conv-default" (stored (add_message "conv-default" (JObj hi) later seeded))
  = respond 200 (JArr [welcome_message calm; message_hi])
      (stored (add_message "conv-default" (JObj hi) later seeded)).
Proof.
  split; [exact seeded_conversations_eq|].
  exact (posted_message_is_listed "conv-default" hi later seeded seeded_conversations
           seeded_conversation [welcome_message calm] (JStr "mine") (JStr "hi")
           seeded_conversations_eq eq_refl eq_refl eq_refl eq_refl eq_refl).
Defined.

(** X8: after a create_conversation whose save succeeds, get_conversation for
    the returned id answers 200 with the very object that the POST returned,
    get_messages for it answers 200 with the empty list, and
    get_conversations lists it beside the former conversations. *)
Theorem created_conversation_is_served (b : gmap string json) (name : json)
    (w : world) (dk : disk) (convs : gmap string json) :
  conversations_of dk = Some convs → b !! "name" = Some name →
  truthy name = true → write_ok w = true →
  let o := create_conversation (JObj b) w dk in
  let conv_id := "conv-" +:+ uuid4 w in
  get_conversation conv_id (stored o) = respond 200 (body o) (stored o) ∧
  get_messages conv_id (stored o) = respond 200 (JArr []) (stored o) ∧
  get_conversations (stored o)
  = respond 200 (JObj (<[conv_id := body o]> convs)) (stored o).
Proof.
  intros (d & Hl & Hcomp & Hc)%conversations_of_inv Hname Hty Hok o conv_id.
  assert (o = respond 201 (new_conversation w name)
                (Some (Parsed (JObj (<["conversations" :=
                   JObj (<[conv_id := new_conversation w name]> convs)]> d))))) as ->.
  { unfold o, create_conversation. rewrite Hl. cbn [mbind result_bind].
    rewrite (truthy_object b "name") by eauto.
    cbn [negb py_get mbind result_bind py_getitem]. rewrite Hname.
    cbn [from_option id mbind result_bind]. rewrite Hty. cbn [negb].
    rewrite Hc. cbn [mbind result_bind py_setitem writeback]. unfold save_data.
    by rewrite Hok. }
  cbn [stored body respond].
  set (d' := <["conversations" := _]> d).
  assert (complete d') as Hcomp' by by apply complete_insert.
  assert (d' !! "conversations"
          = Some (JObj (<[conv_id := new_conversation w name]> convs)))
    as Hd' by apply lookup_insert_eq.
  split_and!.
  - unfold get_conversation. rewrite load_data_complete by done.
    cbn [mbind result_bind py_getitem]. rewrite Hd'.
    cbn [mbind result_bind py_get]. by rewrite lookup_insert_eq.
  - unfold get_messages. rewrite load_data_complete by done.
    cbn [mbind result_bind py_getitem]. rewrite Hd'.
    cbn [mbind result_bind py_in py_getitem]. unfold has_key. by rewrite !lookup_insert_eq.
  - unfold get_conversations. rewrite load_data_complete by done.
    cbn [mbind result_bind py_getitem]. by rewrite Hd'.
Qed.

Lemma created_conversation_is_served_witness :
  conversations_of seeded = Some seeded_conversations ∧
  test_name !! "name" = Some (JStr "Test") ∧
  get_conversation "conv-id-1" with_test
  = respond 200 (new_conversation calm (JStr "Test")) with_test.
Proof.
  split_and!; [exact seeded_conversations_eq|reflexivity|].
  exact (proj1 (created_conversation_is_served test_name (JStr "Test") calm seeded
                  seeded_conversations seeded_conversations_eq eq_refl eq_refl eq_refl)).
Defined.

(** ** The store *)

Lemma backfill_fixed (v v' : json) :
  backfill default_items v = Ok v' → backfill default_items v' = Ok v'.
Proof.
  intros H. destruct v; try discriminate.
  - by rewrite (backfill_string _ _ _ H) in H |- *.
  - by rewrite (backfill_array _ _ _ H) in H |- *.
  - rewrite backfill_object, <- default_data_items in H. injection H as <-.
    by rewrite backfill_object, <- default_data_items, complete_union.
Qed.

(** X9: load_data gives back what was saved.  Saving the state that
    load_data returned, or that state with one entry assigned, and loading
    again returns exactly the saved state: the back-filling adds nothing to a
    state that went through load_data once. *)
Theorem load_after_save (dk : disk) (w : world) (data : json) :
  load_data dk = Ok data → write_ok w = true →
  load_data (snd (save_data data w dk)) = Ok data ∧
  (∀ d key v, data = JObj d →
     load_data (snd (save_data (JObj (<[key := v]> d)) w dk))
     = Ok (JObj (<[key := v]> d))).
Proof.
  intros Hl Hw. unfold save_data. rewrite Hw. cbn [snd]. split.
  - destruct dk as [[|e0|v]|].
    + injection Hl as <-. by apply load_data_complete.
    + unfold load_data, try_except in Hl. cbn [json_load mbind result_bind] in Hl.
      destruct (exn_class e0); try discriminate; injection Hl as <-;
        by apply load_data_complete.
    + unfold load_data in Hl |- *. simpl json_load in Hl |- *.
      cbn [mbind result_bind] in Hl |- *.
      destruct (backfill default_items v) as [x|e] eqn:Hb; unfold try_except in Hl.
      * injection Hl as ->. by rewrite (backfill_fixed _ _ Hb).
      * destruct (exn_class e); try discriminate; injection Hl as <-;
          by rewrite backfill_object, <- default_data_items.
    + injection Hl as <-. by apply load_data_complete.
  - intros d key v ->. apply load_data_complete, complete_insert.
    by eapply load_data_object_inv.
Qed.

Lemma load_after_save_witness :
  load_data None = Ok (JObj default_data) ∧ write_ok calm = true ∧
  load_data (snd (save_data (JObj default_data) calm None)) = Ok (JObj default_data) ∧
  load_data (snd (save_data (JObj (<["simulateBot" := JBool true]> default_data))
                    calm None))
  = Ok (JObj (<["simulateBot" := JBool true]> default_data)).
Proof.
  split_and!; [reflexivity|reflexivity|..].
  - exact (proj1 (load_after_save None calm (JObj default_data) eq_refl eq_refl)).
  - exact (proj2 (load_after_save None calm (JObj default_data) eq_refl eq_refl)
             default_data "simulateBot" (JBool true) eq_refl).
Defined.

Lemma backfill_raises_type_error (items : list (string * json)) (v : json) (e : exn) :
  backfill items v = Raise e → exn_class e = TypeError.
Proof.
  revert v. induction items as [|[key value] rest IH]; intros v; [discriminate|].
  cbn [backfill].
  destruct (py_in key v) as [present|e'] eqn:Hin; cbn [mbind result_bind].
  - destruct present; cbn [negb].
    + cbn [mbind result_bind]. apply IH.
    + destruct (py_setitem v key value) as [v'|e'] eqn:Hset; cbn [mbind result_bind].
      * apply IH.
      * intros [= <-]. destruct v; try discriminate; by injection Hset as <-.
  - intros [= <-]. destruct v; try discriminate; by injection Hin as <-.
Qed.

(** X10: when load_data raises.  It does so in two situations only: [open]
    or [json.load] raises an exception other than JSONDecodeError and
    KeyError (the file cannot be opened or decoded, or json.load gives up on
    it), which load_data lets through as it is; or the file parses as JSON
    to a value that is not an object, and then the exception is a TypeError
    of the back-filling loop.  On a missing file, a file on which json.load
    raises JSONDecodeError, and a JSON object, it returns normally. *)
Theorem load_data_raises_only_on_non_objects (dk : disk) (e : exn) :
  load_data dk = Raise e →
  (dk = Some (Unloadable e) ∧
   exn_class e ≠ JSONDecodeError ∧ exn_class e ≠ KeyError) ∨
  (exn_class e = TypeError ∧ ∃ v, dk = Some (Parsed v) ∧ ∀ d, v ≠ JObj d).
Proof.
  destruct dk as [[|e0|v]|]; try discriminate.
  - unfold load_data, try_except. cbn [json_load mbind result_bind].
    destruct (exn_class e0) eqn:Hcls; try discriminate; intros [= <-];
      left; rewrite Hcls; by split_and!.
  - unfold load_data. simpl json_load. cbn [mbind result_bind].
    destruct (backfill default_items v) as [x|e'] eqn:Hb; unfold try_except;
      [discriminate|].
    pose proof (backfill_raises_type_error _ _ _ Hb) as Hcls. rewrite Hcls.
    intros [= <-]. right. split; [done|]. exists v. split; [done|].
    intros d ->. by rewrite backfill_object in Hb.
Qed.

Lemma load_data_raises_only_on_non_objects_witness :
  load_data (Some (Parsed (JInt 3)))
  = Raise (Exn TypeError "argument of type 'int' is not iterable") ∧
  load_data (Some (Unloadable (Exn UnicodeDecodeError "invalid start byte")))
  = Raise (Exn UnicodeDecodeError "invalid start byte") ∧
  ((Some (Parsed (JInt 3)) = Some (Unloadable (Exn TypeError
       "argument of type 'int' is not iterable")) ∧
    TypeError ≠ JSONDecodeError ∧ TypeError ≠ KeyError) ∨
   (TypeError = TypeError ∧
    ∃ v, Some (Parsed (JInt 3)) = Some (Parsed v) ∧ ∀ d, v ≠ JObj d)).
Proof.
  split_and!; [reflexivity|reflexivity|].
  exact (load_data_raises_only_on_non_objects (Some (Parsed (JInt 3))) _ eq_refl).
Defined.

(** ** Initialisation *)

Lemma initialised_complete (w : world) (d convs : gmap string json) :
  complete d → complete (initialised w d convs).
Proof.
  intros H. unfold initialised. destruct (has_key convs "conv-default"); [done|].
  by apply complete_insert.
Qed.

Lemma reassign_present (d : gmap string json) (key : string) (dflt v : json) :
  complete d → default_data !! key = Some v →
  <[key := default dflt (d !! key)]> d = d.
Proof.
  intros Hcomp Hk. destruct (complete_lookup d key v Hcomp Hk) as [x Hx].
  rewrite Hx. by apply insert_id.
Qed.

Lemma init_default_data_typed (w : world) (dk : disk) (d convs : gmap string json) :
  load_data dk = Ok (JObj d) → d !! "conversations" = Some (JObj convs) →
  init_default_data w dk =
    (Ok (JObj (initialised w d convs)),
     if write_ok w then Some (Parsed (JObj (initialised w d convs)))
     else after_failed_write w dk).
Proof.
  intros Hl Hc. pose proof (load_data_object_inv _ _ Hl) as Hcomp.
  pose proof (initialised_complete w d convs Hcomp) as Hcomp'.
  unfold init_default_data, init_default_steps.
  rewrite Hl. cbn [mbind result_bind py_getitem]. rewrite Hc.
  cbn [mbind result_bind py_in].
  assert ((if negb (has_key convs "conv-default")
           then convs' ← py_setitem (JObj convs) "conv-default" (default_conversation w);
                Ok (writeback (JObj d) "conversations" convs')
           else Ok (JObj d)) = Ok (JObj (initialised w d convs))) as ->.
  { unfold initialised. by destruct (has_key convs "conv-default"). }
  cbn [mbind result_bind py_get py_setitem].
  rewrite (reassign_present _ "currentConvId" _ (JStr "conv-default")) by done.
  rewrite (reassign_present _ "simulateBot" _ (JBool false)) by done.
  rewrite (reassign_present _ "geminiEnabled" _ (JBool false)) by done.
  unfold save_data. by destruct (write_ok w).
Qed.

(** X11: on a state whose conversations are a mapping, init_default_data
    returns normally and changes one thing at most: when "conv-default" is
    missing it adds the conversation seeded with the welcome message.  The
    conversations that were there and every other entry of the loaded state
    are kept as load_data returned them; in particular geminiEnabled is false
    after initialising a missing or unreadable file, since load_data has
    back-filled it before the default of [data.get("geminiEnabled", True)]
    could apply.  When the save succeeds the file holds the returned
    state. *)
Theorem init_default_data_effect (w : world) (dk : disk) (d convs : gmap string json) :
  load_data dk = Ok (JObj d) → d !! "conversations" = Some (JObj convs) →
  let d' := initialised w d convs in
  fst (init_default_data w dk) = Ok (JObj d') ∧
  (write_ok w = true → snd (init_default_data w dk) = Some (Parsed (JObj d'))) ∧
  (∀ key, key ≠ "conversations" → d' !! key = d !! key) ∧
  (∃ convs', d' !! "conversations" = Some (JObj convs') ∧
     (∀ cid, cid ≠ "conv-default" → convs' !! cid = convs !! cid) ∧
     (convs' !! "conv-default"
      = Some (default (default_conversation w) (convs !! "conv-default")))) ∧
  (dk = None ∨ dk = Some Unparsable → d' !! "geminiEnabled" = Some (JBool false)).
Proof.
  intros Hl Hc d'. split_and!.
  - by rewrite (init_default_data_typed w dk d convs).
  - intros Hw. by rewrite (init_default_data_typed w dk d convs), Hw.
  - intros key Hk. unfold d', initialised.
    destruct (has_key convs "conv-default"); [done|]. by rewrite lookup_insert_ne.
  - unfold d', initialised, has_key.
    destruct (convs !! "conv-default") as [c|] eqn:Hd.
    + exists convs. by rewrite Hd.
    + exists (<["conv-default" := default_conversation w]> convs).
      rewrite !lookup_insert_eq. split_and!; [done| |done].
      intros cid Hne. by rewrite lookup_insert_ne.
  - intros Hfresh. assert (d = default_data) as ->
      by (destruct Hfresh as [-> | ->]; by injection Hl).
    unfold d', initialised. destruct (has_key convs "conv-default"); [done|].
    by rewrite lookup_insert_ne.
Qed.

Lemma init_default_data_effect_witness :
  load_data None = Ok (JObj default_data) ∧
  default_data !! "conversations" = Some (JObj ∅) ∧
  write_ok calm = true ∧
  fst (init_default_data calm None) = Ok (JObj (initialised calm default_data ∅)) ∧
  snd (init_default_data calm None)
  = Some (Parsed (JObj (initialised calm default_data ∅))) ∧
  initialised calm default_data ∅ !! "geminiEnabled" = Some (JBool false).
Proof.
  pose proof (init_default_data_effect calm None default_data ∅ eq_refl eq_refl)
    as (Hfst & Hsnd & _ & _ & Hgem).
  split_and!; [reflexivity|reflexivity|reflexivity|exact Hfst|exact (Hsnd eq_refl)|].
  apply Hgem. by left.
Defined.

(** X12: init_default_data is idempotent.  Run again on the file that a
    first run has written, it returns the same state and leaves the same
    file: it does not seed a second welcome message and resets no flag. *)
Theorem init_default_data_idempotent (w1 w2 : world) (dk : disk) :
  typed_file dk → write_ok w1 = true → write_ok w2 = true →
  init_default_data w2 (snd (init_default_data w1 dk)) = init_default_data w1 dk.
Proof.
  intros (d & convs & Hl & Hc)%typed_file_loads Hw1 Hw2.
  pose proof (load_data_object_inv _ _ Hl) as Hcomp.
  rewrite (init_default_data_typed w1 dk d convs Hl Hc), Hw1. cbn [snd].
  set (d1 := initialised w1 d convs).
  assert (∃ convs1, d1 !! "conversations" = Some (JObj convs1) ∧
                    has_key convs1 "conv-default" = true) as (convs1 & Hc1 & Hk).
  { unfold d1, initialised. destruct (has_key convs "conv-default") eqn:Hk.
    - by exists convs.
    - exists (<["conv-default" := default_conversation w1]> convs).
      rewrite lookup_insert_eq. split; [done|]. unfold has_key. by rewrite lookup_insert_eq. }
  assert (load_data (Some (Parsed (JObj d1))) = Ok (JObj d1)) as Hl1
    by by apply load_data_complete, initialised_complete.
  rewrite (init_default_data_typed w2 _ d1 convs1 Hl1 Hc1), Hw2.
  unfold initialised at 1 2. by rewrite Hk.
Qed.

Lemma init_default_data_idempotent_witness :
  typed_file None ∧ write_ok calm = true ∧ write_ok later = true ∧
  init_default_data later seeded = init_default_data calm None.
Proof.
  split_and!; [exact I|reflexivity|reflexivity|].
  exact (init_default_data_idempotent calm later None I eq_refl eq_refl).
Defined.

(** ** The reply generator *)

Lemma extract_reply_shape (answer r : json) :
  extract_reply answer = Ok r →
  r = error_body "Nenhuma resposta do Gemini" ∨ ∃ text, r = success_body text.
Proof.
  unfold extract_reply, success_body.
  repeat first
    [ progress cbn [mbind result_bind]
    | step_bind
    | case_match ];
    intros [= <-]; eauto.
Qed.

Lemma generator_reply_error (msg : string) : generator_reply (error_body msg) = None.
Proof. reflexivity. Qed.

Lemma generator_reply_success (text : json) :
  generator_reply (success_body text) = Some text.
Proof. reflexivity. Qed.

Lemma claimed_request_text_app (py_str : json → string) (prompt : json)
    (ctx : list json) (m : json) :
  (List.length ctx ≤ 5)%nat →
  claimed_request_text py_str prompt (ctx ++ [m]) =
  JStr (String.concat newline
          ((claimed_line py_str <$> ctx) ++
           [claimed_line py_str m; "user: " +:+ py_format py_str prompt])).
Proof.
  intros Hlen. unfold claimed_request_text.
  rewrite last_n_all by (rewrite length_app; cbn; lia).
  rewrite fmap_app, <- (assoc_L app). by destruct ctx.
Qed.

Section Replies.

Variable API_KEY : option string.
Variable py_str : json -> string.

Lemma generate_response_cases (w : world) (prompt conversation_context : json) :
  (∃ msg, generate_response API_KEY py_str w prompt conversation_context
          = error_body msg) ∨
  (∃ text, generate_response API_KEY py_str w prompt conversation_context
           = success_body text).
Proof.
  unfold generate_response, api_error.
  destruct (api_key_missing API_KEY); [by eauto|].
  destruct (build_prompt py_str prompt conversation_context); [|by eauto].
  destruct (http_post w a) as [msg|answer]; [by eauto|].
  destruct (extract_reply answer) as [r|e] eqn:Hr; [|by eauto].
  destruct (extract_reply_shape _ _ Hr) as [-> | [text ->]]; eauto.
Qed.

(** X13: generate_response never raises and returns one of two shapes, for
    every prompt, context and generator answer: an object with the single
    entry "error", which the callers' test [.get("status") == "success"]
    rejects, or an object with "response" and status "success", which they
    accept. *)
Theorem generate_response_shape (w : world) (prompt conversation_context : json) :
  let r := generate_response API_KEY py_str w prompt conversation_context in
  (∃ msg, r = error_body msg ∧ generator_reply r = None) ∨
  (∃ text, r = success_body text ∧ generator_reply r = Some text).
Proof.
  intros r. destruct (generate_response_cases w prompt conversation_context)
    as [[msg H] | [text H]]; fold r in H; rewrite H; [left|right]; eauto.
Qed.

(** X14: what generate_response makes of the generator's answer, once a key
    is configured and the context is a list of messages.  A failed request
    gives the error "Erro de conexão: " followed by the failure text.  An
    answer object without "candidates", or with an empty list of them, gives
    the error "Nenhuma resposta do Gemini".  An answer whose first candidate
    has content.parts[0].text gives that text with status "success"; further
    candidates and parts are ignored. *)
Theorem generate_response_outcomes (w : world) (prompt : json) (ctx : list json) :
  api_key_missing API_KEY = false → Forall well_formed_message ctx →
  let sent := claimed_request_text py_str prompt ctx in
  let r := generate_response API_KEY py_str w prompt (JArr ctx) in
  (∀ msg, http_post w sent = RequestFailed msg →
          r = error_body ("Erro de conexão: " +:+ msg)) ∧
  (∀ a, http_post w sent = Responded (JObj a) →
        a !! "candidates" = None ∨ a !! "candidates" = Some (JArr []) →
        r = error_body "Nenhuma resposta do Gemini") ∧
  (∀ a cand rest content part rest' text,
     http_post w sent = Responded (JObj a) →
     a !! "candidates" = Some (JArr (JObj cand :: rest)) →
     cand !! "content" = Some (JObj content) →
     content !! "parts" = Some (JArr (JObj part :: rest')) →
     part !! "text" = Some text →
     r = success_body text).
Proof.
  intros Hk Hwf sent r.
  assert (r = match http_post w sent with
                   | RequestFailed msg => error_body ("Erro de conexão: " +:+ msg)
                   | Responded answer =>
                       match extract_reply answer with
                       | Ok x => x
                       | Raise e => api_error e
                       end
                   end) as Hr.
  { unfold r, generate_response.
    by rewrite Hk, (build_prompt_well_formed py_str prompt ctx Hwf). }
  split_and!.
  - intros msg Hp. by rewrite Hr, Hp.
  - intros a Hp Hc. rewrite Hr, Hp. unfold extract_reply. cbn [py_in mbind result_bind].
    unfold has_key. destruct Hc as [Hc | Hc]; rewrite Hc; [done|].
    cbn [mbind result_bind py_getitem]. by rewrite Hc.
  - intros a cand rest content part rest' text Hp Hc Hcont Hparts Htext.
    rewrite Hr, Hp. unfold extract_reply. cbn [py_in mbind result_bind py_getitem].
    unfold has_key. rewrite Hc. cbn [mbind result_bind py_len length Nat.ltb Nat.leb].
    cbn [py_first mbind result_bind py_getitem]. rewrite Hcont.
    cbn [mbind result_bind py_getitem]. rewrite Hparts.
    cbn [mbind result_bind py_first py_getitem]. by rewrite Htext.
Qed.

(** X15: /api/gemini/generate.  A falsy body and an object without "prompt"
    are answered 400 "Prompt é obrigatório".  For an object with a prompt the
    generator is called with that prompt and the body's "context" (the empty
    list when absent); the answer is 200 with the generator's result when it
    succeeded and 500 with its error otherwise, and without an API key it is
    500 "API key não configurada".  The backing file is never read. *)
Theorem generate_with_gemini_cases (data : json) (w : world) (dk : disk) :
  let o := generate_with_gemini API_KEY py_str data w dk in
  (truthy data = false ∨ (∃ b, data = JObj b ∧ b !! "prompt" = None) →
   o = respond 400 (error_body "Prompt é obrigatório") dk) ∧
  (∀ b prompt, data = JObj b → b !! "prompt" = Some prompt →
     let r := generate_response API_KEY py_str w prompt
                (default (JArr []) (b !! "context")) in
     (∀ text, generator_reply r = Some text → o = respond 200 (success_body text) dk) ∧
     (generator_reply r = None → ∃ msg, r = error_body msg ∧
                                        o = respond 500 (error_body msg) dk) ∧
     (api_key_missing API_KEY = true →
      o = respond 500 (error_body "API key não configurada") dk)).
Proof.
  intros o. split.
  - intros [Hf | (b & -> & Hp)]; unfold o, generate_with_gemini.
    + by rewrite Hf.
    + destruct (truthy (JObj b)); cbn [negb py_in mbind result_bind]; [|done].
      unfold has_key. by rewrite Hp.
  - intros b prompt -> Hp r.
    assert (o = guard dk (
              st ← py_get r "status" JNull;
              if eq_str st "success" then Ok (respond 200 r dk)
              else err ← py_get r "error" (JStr "Erro desconhecido");
                   Ok (respond 500 (JObj {[ "error" := err ]}) dk))) as Ho.
    { unfold o, generate_with_gemini. rewrite (truthy_object b "prompt") by eauto.
      cbn [negb py_in mbind result_bind py_get py_getitem].
      rewrite (proj2 (has_key_true b "prompt")) by eauto. by rewrite Hp. }
    assert (∀ msg, r = error_body msg → o = respond 500 (error_body msg) dk) as Herr.
    { intros msg Hr. rewrite Ho, Hr. reflexivity. }
    split_and!.
    + intros text Ht. destruct (generate_response_cases w prompt
        (default (JArr []) (b !! "context"))) as [[msg H] | [text' H]]; fold r in H.
      * rewrite H, generator_reply_error in Ht. discriminate.
      * rewrite H, generator_reply_success in Ht. injection Ht as Heq. subst text'.
        rewrite Ho, H. reflexivity.
    + intros Hn. destruct (generate_response_cases w prompt
        (default (JArr []) (b !! "context"))) as [[msg H] | [text' H]]; fold r in H.
      * exists msg. split; [done|]. by apply Herr.
      * rewrite H, generator_reply_success in Hn. discriminate.
    + intros Hk. apply Herr. unfold r, generate_response. by rewrite Hk.
Qed.

(** X16: the prompt that a timer sends.  A "mine" message posted while
    geminiEnabled holds starts a timer whose context ends with the posted
    message itself, preceded by the last four earlier messages at most.  As
    generate_response appends the prompt after the context, the text sent to
    the generator ends with the line "user: <text>" twice. *)
Theorem posted_text_is_sent_twice (cid : string) (p : gmap string json) (w : world)
    (dk : disk) (convs conv : gmap string json) (msgs : list json) (text : json) :
  conversations_of dk = Some convs → convs !! cid = Some (JObj conv) →
  conv !! "messages" = Some (JArr msgs) → Forall well_formed_message msgs →
  p !! "who" = Some (JStr "mine") → p !! "text" = Some text →
  gemini_enabled dk = true → write_ok w = true →
  ∃ t, scheduled (add_message cid (JObj p) w dk) = Some t ∧
       task_conv t = cid ∧ task_prompt t = text ∧
       task_context t
       = JArr (last_n 4 msgs ++ [new_message w (JStr "mine") text (p !! "status")]) ∧
       build_prompt py_str (task_prompt t) (task_context t) =
       Ok (JStr (String.concat newline
                   ((claimed_line py_str <$> last_n 4 msgs) ++
                    ["user: " +:+ py_format py_str text;
                     "user: " +:+ py_format py_str text]))).
Proof.
  intros (d & Hl & Hcomp & Hc)%conversations_of_inv Hcid Hm Hwf Hwho Htext Hon Hok.
  set (message := new_message w (JStr "mine") text (p !! "status")).
  exists (Task cid text (JArr (last_n 4 msgs ++ [message]))).
  assert (well_formed_message message) as Hmsg.
  { eexists _, (JStr "mine"), text. split_and!; reflexivity. }
  split_and!; try done.
  - rewrite (add_message_typed cid p w dk d convs conv msgs (JStr "mine") text) by done.
    rewrite Hok. cbn [scheduled]. unfold timer_for.
    unfold gemini_enabled in Hon. rewrite Hl in Hon. cbn [py_get] in Hon.
    rewrite Hon. cbn [eq_str String.eqb andb]. fold message.
    by rewrite last_n_app.
  - cbn [task_prompt task_context].
    rewrite build_prompt_well_formed.
    + rewrite claimed_request_text_app by (rewrite last_n_length; lia). reflexivity.
    + apply Forall_app. split; [unfold last_n; by apply Forall_drop|by constructor].
Qed.

End Replies.

Lemma generate_response_outcomes_witness :
  api_key_missing (Some "key") = false ∧ Forall well_formed_message [] ∧
  generate_response (Some "key") no_repr calm (JStr "hi") (JArr [])
  = error_body "Erro de conexão: offline" ∧
  generate_response (Some "key") no_repr answering (JStr "hi") (JArr [])
  = success_body (JStr "hi").
Proof.
  split_and!; [reflexivity|constructor|..].
  - exact (proj1 (generate_response_outcomes (Some "key") no_repr calm (JStr "hi") []
                    eq_refl (Forall_nil_2 _)) "offline" eq_refl).
  - exact (proj2 (proj2 (generate_response_outcomes (Some "key") no_repr answering
                           (JStr "hi") [] eq_refl (Forall_nil_2 _)))
             _ _ _ _ _ _ _ eq_refl eq_refl eq_refl eq_refl eq_refl).
Defined.

Lemma generate_with_gemini_cases_witness :
  generate_with_gemini None no_repr (JObj ∅) calm seeded
  = respond 400 (error_body "Prompt é obrigatório") seeded ∧
  generate_with_gemini None no_repr (JObj {[ "prompt" := JStr "hi" ]}) calm seeded
  = respond 500 (error_body "API key não configurada") seeded ∧
  generate_with_gemini (Some "key") no_repr (JObj {[ "prompt" := JStr "hi" ]})
    answering seeded
  = respond 200 (success_body (JStr "hi")) seeded.
Proof.
  split_and!.
  - exact (proj1 (generate_with_gemini_cases None no_repr (JObj ∅) calm seeded)
             (or_introl eq_refl)).
  - exact (proj2 (proj2 (proj2 (generate_with_gemini_cases None no_repr _ calm seeded)
             {[ "prompt" := JStr "hi" ]} (JStr "hi") eq_refl eq_refl)) eq_refl).
  - exact (proj1 (proj2 (generate_with_gemini_cases (Some "key") no_repr _ answering seeded)
             {[ "prompt" := JStr "hi" ]} (JStr "hi") eq_refl eq_refl) (JStr "hi") eq_refl).
Defined.

Lemma posted_text_is_sent_twice_witness :
  conversations_of enabled = Some seeded_conversations ∧
  Forall well_formed_message [welcome_message calm] ∧
  gemini_enabled enabled = true ∧
  ∃ t, scheduled (add_message "conv-default" (JObj hi) later enabled) = Some t ∧
       build_prompt no_repr (task_prompt t) (task_context t) =
       Ok (JStr ("model: Olá! Sou o Gemini AI. Como posso ajudá-lo hoje?" +:+ newline
                 +:+ "user: hi" +:+ newline +:+ "user: hi")).
Proof.
  assert (conversations_of enabled = Some seeded_conversations) as Hen
    by (vm_compute; reflexivity).
  assert (gemini_enabled enabled = true) as Hon by (vm_compute; reflexivity).
  assert (Forall well_formed_message [welcome_message calm]) as Hwf.
  { repeat constructor. eexists _, (JStr "their"), _. split_and!; reflexivity. }
  split_and!; [exact Hen|exact Hwf|exact Hon|].
  destruct (posted_text_is_sent_twice no_repr "conv-default" hi later enabled
              seeded_conversations seeded_conversation [welcome_message calm] (JStr "hi")
              Hen eq_refl eq_refl Hwf eq_refl eq_refl Hon eq_refl)
    as (t & Hs & _ & _ & _ & Hb).
  exists t. split; [exact Hs|exact Hb].
Defined.

(** ** Back-filling *)

(** X17: on a backing file that holds a JSON object, load_data keeps every
    entry of the object as it is, whatever its type, and adds the default
    value for each of the four top-level keys that the object lacks, and
    nothing else. *)
Theorem load_data_backfills (d : gmap string json) :
  ∃ d', load_data (Some (Parsed (JObj d))) = Ok (JObj d') ∧
        ∀ key, d' !! key = match d !! key with
                           | Some v => Some v
                           | None => default_data !! key
                           end.
Proof.
  exists (d ∪ default_data). split; [apply load_data_object|].
  intros key. rewrite lookup_union. by destruct (d !! key), (default_data !! key).
Qed.
